(** * A shallow embedding of [app.py]

    The program is a small Flask application: an OAuth2 authorization-code
    login against the Spotify Web API, a profile page, and a recommendation
    page assembled from related artists and low-popularity tracks.

    The embedding follows the Python text function by function.

    - JSON payloads and Python objects are values of [pyval]; JSON objects are
      association lists in document order with distinct keys (this is what
      [json.loads] builds).  JSON numbers are integers, as the Web API
      documents its [popularity] field; floating-point numbers are outside
      the model.
    - Python exceptions are values of [PyExn]; a computation that may raise
      returns a [Result].
    - The program talks to the network, prints, keeps a Flask session and
      draws random numbers.  These effects are threaded through a [World]
      by the monad [M].  The network is an oracle [upstream] that answers a
      request given all the requests issued before it, so an answer may
      depend on the history; [entropy] is the stream behind [random].
*)

From Stdlib Require Import ZArith String Ascii List DecimalString.
From stdpp Require Import base option list strings gmap.

Local Open Scope string_scope.
Local Open Scope Z_scope.

(** ** Python values and exceptions *)

#[local] Set Warnings "-register-all".

Inductive pyval : Type :=
| PNone
| PBool (b : bool)
| PInt (n : Z)
| PStr (s : string)
| PList (items : list pyval)
| PDict (entries : list (string * pyval)).

Inductive PyExn : Type :=
| KeyError (key : pyval)
| IndexError
| TypeError
| AttributeError
| BuildError (endpoint : string)
| HTTPError (msg : string)
| ConnectionError
| JSONDecodeError.

Inductive Result (A : Type) : Type :=
| Ok (a : A)
| Raise (e : PyExn).
Arguments Ok {A} a.
Arguments Raise {A} e.

#[global] Instance Result_ret : MRet Result := fun _ a => Ok a.
#[global] Instance Result_bind : MBind Result := fun _ _ f r =>
  match r with
  | Ok a => f a
  | Raise e => Raise e
  end.

(** [bool(v)]: the truth value Python gives to [v] in [if not v]. *)
Definition truthy (v : pyval) : bool :=
  match v with
  | PNone => false
  | PBool b => b
  | PInt n => negb (n =? 0)
  | PStr s => negb (String.eqb s "")
  | PList items => negb (Nat.eqb (length items) 0)
  | PDict entries => negb (Nat.eqb (length entries) 0)
  end.

(** First binding of a key in an association list. *)
Fixpoint assoc {V : Type} (k : string) (l : list (string * V)) : option V :=
  match l with
  | [] => None
  | (k', v) :: rest => if String.eqb k k' then Some v else assoc k rest
  end.

(** [d[k] = v] on a dict: the key keeps its place when it is already there
    and goes to the end otherwise. *)
Fixpoint assoc_set {V : Type} (k : string) (v : V) (l : list (string * V))
  : list (string * V) :=
  match l with
  | [] => [(k, v)]
  | (k', v') :: rest =>
      if String.eqb k k' then (k, v) :: rest else (k', v') :: assoc_set k v rest
  end.

(** [seq[i]] for a Python index: a negative [i] counts from the end. *)
Definition index_list {A : Type} (l : list A) (i : Z) : option A :=
  if 0 <=? i then l !! Z.to_nat i
  else if 0 <=? Z.of_nat (length l) + i then l !! Z.to_nat (Z.of_nat (length l) + i)
  else None.

Definition chars (s : string) : list pyval :=
  map (fun c => PStr (String c EmptyString)) (list_ascii_of_string s).

(** [v[k]] *)
Definition getitem (v k : pyval) : Result pyval :=
  match v, k with
  | PDict entries, PStr key =>
      match assoc key entries with
      | Some x => Ok x
      | None => Raise (KeyError k)
      end
  | PDict _, PList _ | PDict _, PDict _ => Raise TypeError
  | PDict _, _ => Raise (KeyError k)
  | PList items, PInt i =>
      match index_list items i with
      | Some x => Ok x
      | None => Raise IndexError
      end
  | PList items, PBool b =>
      match index_list items (if b then 1 else 0) with
      | Some x => Ok x
      | None => Raise IndexError
      end
  | PStr s, PInt i =>
      match index_list (chars s) i with
      | Some x => Ok x
      | None => Raise IndexError
      end
  | PStr s, PBool b =>
      match index_list (chars s) (if b then 1 else 0) with
      | Some x => Ok x
      | None => Raise IndexError
      end
  | _, _ => Raise TypeError
  end.

(** [v[k] = x]; only a dict accepts a string key. *)
Definition setitem (v : pyval) (k : string) (x : pyval) : Result pyval :=
  match v with
  | PDict entries => Ok (PDict (assoc_set k x entries))
  | _ => Raise TypeError
  end.

(** [v.get(k, default)]: a method of dicts only. *)
Definition dict_get (v : pyval) (k : string) (dflt : pyval) : Result pyval :=
  match v with
  | PDict entries =>
      Ok (match assoc k entries with Some x => x | None => dflt end)
  | _ => Raise AttributeError
  end.

(** [k in v] where [v] is a dict.  The program evaluates ['genres' in
    user_data] only after [user_data.get] has succeeded, which it does for
    dicts alone. *)
Definition dict_contains (k : string) (v : pyval) : Result bool :=
  match v with
  | PDict entries => Ok (bool_decide (is_Some (assoc k entries)))
  | _ => Raise TypeError
  end.

(** The elements a [for] loop or a comprehension draws from [v]. *)
Definition py_iter (v : pyval) : Result (list pyval) :=
  match v with
  | PList items => Ok items
  | PDict entries => Ok (map (fun e => PStr (fst e)) entries)
  | PStr s => Ok (chars s)
  | _ => Raise TypeError
  end.

(** [len(v)] *)
Definition py_len (v : pyval) : Result nat :=
  match v with
  | PList items => Ok (length items)
  | PDict entries => Ok (length entries)
  | PStr s => Ok (String.length s)
  | _ => Raise TypeError
  end.

(** [v < n] for an integer literal [n]; [bool] is a subclass of [int]. *)
Definition lt_int (v : pyval) (n : Z) : Result bool :=
  match v with
  | PInt m => Ok (m <? n)
  | PBool b => Ok ((if b then 1 else 0) <? n)
  | _ => Raise TypeError
  end.

(** [l[:n]]: a negative [n] drops that many elements from the end. *)
Definition slice_to {A : Type} (l : list A) (n : Z) : list A :=
  if 0 <=? n then firstn (Z.to_nat n) l
  else firstn (length l - Z.to_nat (- n)) l.

Definition decimal (n : Z) : string := NilZero.string_of_int (Z.to_int n).

(** ** The world the handlers run in *)

Inductive Method : Type := GET | POST.

Record Request : Type := mkRequest {
  rq_method : Method;
  rq_url : string;
  rq_headers : list (string * string);
  rq_params : pyval;
  rq_data : list (string * pyval)
}.

(** What [requests] hands back: [json_body] is the value [response.json()]
    decodes, [None] when the body is not JSON. *)
Record Response : Type := mkResponse {
  status_code : Z;
  reason : string;
  final_url : string;
  text : string;
  json_body : option pyval
}.

Inductive Outcome : Type :=
| Answered (r : Response)
| Unreachable.

Record World : Type := mkWorld {
  trace : list Request;
  stdout : list string;
  session : gmap string pyval;
  draws : nat
}.

(** The request [requests.get(url, headers=headers, params=params)] sends. *)
Definition get_request (url : string) (headers : list (string * string))
  (params : pyval) : Request :=
  mkRequest GET url headers params [].

(** The request [requests.post(url, data=data, headers=headers)] sends. *)
Definition post_request (url : string) (data : list (string * pyval))
  (headers : list (string * string)) : Request :=
  mkRequest POST url headers PNone data.

(** The world after one more request, one more printed line, one more draw. *)
Definition sent (rq : Request) (w : World) : World :=
  mkWorld (trace w ++ [rq])%list (stdout w) (session w) (draws w).

Definition printed (line : string) (w : World) : World :=
  mkWorld (trace w) (stdout w ++ [line])%list (session w) (draws w).

Definition drawn (w : World) : World :=
  mkWorld (trace w) (stdout w) (session w) (S (draws w)).

Definition stored (k : string) (v : pyval) (w : World) : World :=
  mkWorld (trace w) (stdout w) (<[k := v]> (session w)) (draws w).

Definition M (A : Type) : Type := World -> Result A * World.

(** Two worlds that differ at most in what was sent and what was printed. *)
Definition agree (w1 w2 : World) : Prop :=
  session w1 = session w2 /\ draws w1 = draws w2.

(** A computation whose result does not depend on what was sent or printed
    before it. *)
Definition blind {A : Type} (m : M A) : Prop :=
  forall w1 w2, agree w1 w2 ->
    fst (m w1) = fst (m w2) /\ agree (snd (m w1)) (snd (m w2)).

(** A computation that only sends and prints. *)
Definition quiet {A : Type} (m : M A) : Prop :=
  forall w, agree w (snd (m w)).

#[global] Instance M_ret : MRet M := fun _ a w => (Ok a, w).
#[global] Instance M_bind : MBind M := fun _ _ f m w =>
  match m w with
  | (Ok a, w') => f a w'
  | (Raise e, w') => (Raise e, w')
  end.

Definition lift {A : Type} (r : Result A) : M A := fun w => (r, w).

(** [try: body except <the exceptions handler accepts>: ...] *)
Definition try_except {A : Type} (body : M A) (handler : PyExn -> option (M A))
  : M A := fun w =>
  match body w with
  | (Ok a, w') => (Ok a, w')
  | (Raise e, w') =>
      match handler e with
      | Some h => h w'
      | None => (Raise e, w')
      end
  end.

(** A [for] loop over [xs] that carries the loop's variables in [s]. *)
Fixpoint for_in {S X : Type} (xs : list X) (body : S -> X -> M S) (s : S) : M S :=
  match xs with
  | [] => mret s
  | x :: rest => s' ← body s x; for_in rest body s'
  end.

(** A comprehension [[f x for x in xs]] whose element expression may raise. *)
Fixpoint collect {X Y : Type} (f : X -> Result Y) (xs : list X) : Result (list Y) :=
  match xs with
  | [] => Ok []
  | x :: rest => y ← f x; ys ← collect f rest; mret (y :: ys)
  end.

Definition print (line : string) : M unit := fun w => (Ok tt, printed line w).

Definition session_get (k : string) : M pyval := fun w =>
  (Ok (default PNone (session w !! k)), w).

Definition session_set (k : string) (v : pyval) : M unit := fun w =>
  (Ok tt, stored k v w).

Definition session_clear : M unit := fun w =>
  (Ok tt, mkWorld (trace w) (stdout w) ∅ (draws w)).

(** [Response.raise_for_status] of [requests]. *)
Definition raise_for_status (r : Response) : Result unit :=
  if (400 <=? status_code r) && (status_code r <? 500) then
    Raise (HTTPError (decimal (status_code r) ++ " Client Error: " ++ reason r
                      ++ " for url: " ++ final_url r))
  else if (500 <=? status_code r) && (status_code r <? 600) then
    Raise (HTTPError (decimal (status_code r) ++ " Server Error: " ++ reason r
                      ++ " for url: " ++ final_url r))
  else Ok tt.

Definition response_json (r : Response) : Result pyval :=
  match json_body r with
  | Some v => Ok v
  | None => Raise JSONDecodeError
  end.

(** The responses a Flask view returns. *)
Inductive View : Type :=
| Redirect (location : string)
| Body (content : string)
| Rendered (template : string) (context : list (string * pyval)).

Definition routes : list (string * string) :=
  [("home", "/"); ("login", "/login"); ("callback", "/callback");
   ("profile", "/profile"); ("logout", "/logout"); ("recommend", "/recommend")].

Definition url_for (endpoint : string) : Result string :=
  match assoc endpoint routes with
  | Some path => Ok path
  | None => Raise (BuildError endpoint)
  end.

(** ** The shapes the Web API promises

    A track object of the recommendations endpoint: a name, a non-empty list
    of artists that have names, an integer popularity, a preview URL (which
    may be null) and an album that has a name. *)

Definition is_track (t : pyval) : bool :=
  match t with
  | PDict e =>
      match assoc "name" e, assoc "artists" e, assoc "popularity" e,
            assoc "preview_url" e, assoc "album" e with
      | Some _, Some (PList (PDict a :: _)), Some (PInt _), Some _, Some (PDict al) =>
          bool_decide (is_Some (assoc "name" a))
          && bool_decide (is_Some (assoc "name" al))
      | _, _, _, _, _ => false
      end
  | _ => false
  end.

(** An artist object of the related-artists endpoint: a name, genres and a
    popularity. *)
Definition is_artist (a : pyval) : bool :=
  match a with
  | PDict e =>
      bool_decide (is_Some (assoc "name" e))
      && bool_decide (is_Some (assoc "genres" e))
      && bool_decide (is_Some (assoc "popularity" e))
  | _ => false
  end.

(** A top artist as [recommend_music] reads it: an object with an [id]. *)
Definition has_id (a : pyval) : bool :=
  match a with
  | PDict e => bool_decide (is_Some (assoc "id" e))
  | _ => false
  end.

(** User data [recommend_music] can work with: [top_artists], when there, is
    a list of artists with ids; [genres], when there, is a list. *)
Definition user_data_ok (entries : list (string * pyval)) : bool :=
  match assoc "top_artists" entries with
  | None => true
  | Some (PList artists) => forallb has_id artists
  | Some _ => false
  end
  && match assoc "genres" entries with
     | None | Some (PList _) => true
     | Some _ => false
     end.

(** Total projections, for stating what a result holds. *)
Definition field (k : string) (v : pyval) : pyval :=
  match v with
  | PDict e => default PNone (assoc k e)
  | _ => PNone
  end.

Definition first_of (v : pyval) : pyval :=
  match v with
  | PList (x :: _) => x
  | _ => PNone
  end.

Definition popularity_of (v : pyval) : Z :=
  match field "popularity" v with
  | PInt n => n
  | _ => 0
  end.

(** The five fields a hidden gem keeps of an upstream track. *)
Definition summary (t : pyval) : pyval :=
  PDict [("name", field "name" t);
         ("artist", field "name" (first_of (field "artists" t)));
         ("popularity", field "popularity" t);
         ("preview_url", field "preview_url" t);
         ("album", field "name" (field "album" t))].

(** The hidden gems as the specification words them: the tracks below
    popularity 50, in upstream order, cut to the first [max_results]. *)
Definition hidden_gems_spec (max_results : nat) (tracks : list pyval) : list pyval :=
  firstn max_results
    (map summary (filter (fun t => popularity_of t < 50) tracks)).

(** An entry whose [popularity] field compares below 50. *)
Definition below_50 (g : pyval) : Prop :=
  exists p, getitem g (PStr "popularity") = Ok p /\ lt_int p 50 = Ok true.

(** An entry of the recommendation list carrying the tag [kind]. *)
Definition tagged (kind : string) (e : pyval) : Prop :=
  getitem e (PStr "type") = Ok (PStr kind).

(** The statuses [raise_for_status] turns into an [HTTPError]. *)
Definition is_http_error (status : Z) : bool :=
  (400 <=? status) && (status <? 600).

(** An answer the related-artists endpoint may give: an HTTP error, or an
    object listing artists. *)
Definition related_ok (o : Outcome) : bool :=
  match o with
  | Unreachable => false
  | Answered r =>
      is_http_error (status_code r)
      || match json_body r with
         | Some (PDict e) =>
             match assoc "artists" e with
             | Some (PList artists) => forallb is_artist artists
             | _ => false
             end
         | _ => false
         end
  end.

(** An answer the recommendations endpoint may give: an HTTP error, or an
    object listing tracks. *)
Definition recommendations_ok (o : Outcome) : bool :=
  match o with
  | Unreachable => false
  | Answered r =>
      is_http_error (status_code r)
      || match json_body r with
         | Some (PDict e) =>
             match assoc "tracks" e with
             | Some (PList tracks) => forallb is_track tracks
             | _ => false
             end
         | _ => false
         end
  end.

(** ** Fixtures

    Concrete networks, payloads and formatting used to run the program on
    examples. *)

Definition fresh : World := mkWorld [] [] ∅ 0.

(** A network that is down. *)
Definition offline : list Request -> Request -> Outcome :=
  fun _ _ => Unreachable.

(** A network that answers every request with [r]. *)
Definition always (r : Response) : list Request -> Request -> Outcome :=
  fun _ _ => Answered r.

(** A network that answers by URL and knows nothing else. *)
Definition serve (table : list (string * Response))
  : list Request -> Request -> Outcome :=
  fun _ rq =>
    match assoc (rq_url rq) table with
    | Some r => Answered r
    | None => Answered (mkResponse 404 "Not Found" (rq_url rq) "" None)
    end.

(** A network that answers the [n]-th request with the [n]-th outcome. *)
Definition scripted (script : list Outcome) : list Request -> Request -> Outcome :=
  fun history _ =>
    match script !! length history with
    | Some o => o
    | None => Unreachable
    end.

(** [repr] on [None], booleans, integers, and on strings and containers
    free of quotes, backslashes and non-printing characters. *)
Fixpoint plain_repr (v : pyval) : string :=
  match v with
  | PNone => "None"
  | PBool true => "True"
  | PBool false => "False"
  | PInt n => decimal n
  | PStr s => "'" ++ s ++ "'"
  | PList items => "[" ++ String.concat ", " (map plain_repr items) ++ "]"
  | PDict entries =>
      "{" ++ String.concat ", "
               (map (fun '(k, x) => "'" ++ k ++ "': " ++ plain_repr x) entries)
      ++ "}"
  end.

Definition ok_json (v : pyval) : Response := mkResponse 200 "OK" "" "" (Some v).

Definition track_json (name : string) (popularity : Z) : pyval :=
  PDict [("name", PStr name);
         ("artists", PList [PDict [("name", PStr "someone")]]);
         ("popularity", PInt popularity);
         ("preview_url", PNone);
         ("album", PDict [("name", PStr "somewhere")])].

Definition gem_json (name : string) (popularity : Z) : pyval :=
  PDict [("name", PStr name); ("artist", PStr "someone");
         ("popularity", PInt popularity); ("preview_url", PNone);
         ("album", PStr "somewhere")].

(** Ten recommended tracks with popularities
    [10, 60, 20, 70, 30, 80, 40, 90, 49, 51]. *)
Definition fixture_tracks : list pyval :=
  [track_json "a" 10; track_json "b" 60; track_json "c" 20; track_json "d" 70;
   track_json "e" 30; track_json "f" 80; track_json "g" 40; track_json "h" 90;
   track_json "i" 49; track_json "j" 51].

Definition fixture_recommendations : pyval :=
  PDict [("tracks", PList fixture_tracks)].

Definition fixture_gems : list pyval :=
  [gem_json "a" 10; gem_json "c" 20; gem_json "e" 30; gem_json "g" 40;
   gem_json "i" 49].

Definition not_found : Response := mkResponse 404 "Not Found" "" "" None.

Definition invalid_grant : Response :=
  mkResponse 400 "Bad Request" "" "invalid_grant" None.

(** A token answer with both tokens, and one with neither. *)
Definition tokens_granted : Response :=
  ok_json (PDict [("access_token", PStr "A"); ("refresh_token", PStr "R")]).

Definition tokens_missing : Response :=
  ok_json (PDict [("token_type", PStr "Bearer")]).

Definition artist_json (name : string) (popularity : Z) : pyval :=
  PDict [("name", PStr name); ("genres", PList [PStr "indie"]);
         ("popularity", PInt popularity)].

Definition artist_entry_json (name : string) (popularity : Z) : pyval :=
  PDict [("name", PStr name); ("type", PStr "Artist");
         ("genres", PList [PStr "indie"]); ("popularity", PInt popularity)].

(** A small Web API: a profile, one top artist and one artist related to it. *)
Definition small_api : list Request -> Request -> Outcome :=
  serve
    [("https://api.spotify.com/v1/me", ok_json (PDict [("id", PStr "u1")]));
     ("https://api.spotify.com/v1/me/top/artists",
      ok_json (PDict [("items", PList [PDict [("id", PStr "id1")]])]));
     ("https://api.spotify.com/v1/artists/id1/related-artists",
      ok_json (PDict [("artists", PList [artist_json "x" 70])]))].

(** A Web API that answers everything with five artists and ten tracks. *)
Definition generous_api : list Request -> Request -> Outcome :=
  always (ok_json (PDict
    [("artists", PList [artist_json "p" 1; artist_json "q" 2; artist_json "r" 3;
                        artist_json "s" 4; artist_json "t" 5]);
     ("tracks", PList fixture_tracks)])).

(** User data naming three top artists and one genre. *)
Definition keen_listener : list (string * pyval) :=
  [("id", PStr "u1");
   ("top_artists", PList [PDict [("id", PStr "id1")]; PDict [("id", PStr "id2")];
                          PDict [("id", PStr "id3")]]);
   ("genres", PList [PStr "indie"])].

(** User data naming one top artist and no genres. *)
Definition plain_listener : list (string * pyval) :=
  [("id", PStr "u1"); ("top_artists", PList [PDict [("id", PStr "id1")]])].

Definition die : nat -> nat := fun n => (3 * n + 1)%nat.

Definition logged_in : World :=
  mkWorld [] [] (<["access_token" := PStr "token"]> ∅) 0.

Definition client : pyval := PStr "client".
Definition secret : pyval := PStr "secret".
Definition redirect_uri : pyval := PStr "http://localhost:5000/callback".

Section App.

(** The network: the answer to a request, given the requests before it. *)
Variable upstream : list Request -> Request -> Outcome.
(** The random stream behind the module [random]. *)
Variable entropy : nat -> nat.
(** Python's [repr]; [str] agrees with it except on strings. *)
Variable repr : pyval -> string.
(** The credentials [os.getenv] read at start-up ([PNone] when unset). *)
Variables SPOTIFY_CLIENT_ID SPOTIFY_CLIENT_SECRET SPOTIFY_REDIRECT_URI : pyval.

(** [f"{v}"] *)
Definition py_str (v : pyval) : string :=
  match v with
  | PStr s => s
  | _ => repr v
  end.

Definition send (rq : Request) : M Response := fun w =>
  match upstream (trace w) rq with
  | Answered r => (Ok r, sent rq w)
  | Unreachable => (Raise ConnectionError, sent rq w)
  end.

Definition requests_get (url : string) (headers : list (string * string))
  (params : pyval) : M Response :=
  send (get_request url headers params).

Definition requests_post (url : string) (data : list (string * pyval))
  (headers : list (string * string)) : M Response :=
  send (post_request url data headers).

Definition api_request (url : string) (headers : list (string * string))
  (params : pyval) : M pyval :=
  try_except
    (response ← requests_get url headers params;
     _ ← lift (raise_for_status response);
     lift (response_json response))
    (fun e =>
       match e with
       | HTTPError msg =>
           Some (_ ← print ("Error during API request to " ++ url ++ ": " ++ msg);
                 mret PNone)
       | _ => None
       end).

(** *** Routes of the OAuth flow *)

Definition home : M View :=
  mret (Rendered "home.html" []).

Definition login : M View :=
  let spotify_auth_url :=
    "https://accounts.spotify.com/authorize?"
    ++ "response_type=code&client_id=" ++ py_str SPOTIFY_CLIENT_ID
    ++ "&redirect_uri=" ++ py_str SPOTIFY_REDIRECT_URI
    ++ "&scope=user-read-private%20user-top-read" in
  mret (Redirect spotify_auth_url).

(** [request.args.get('code')], where [args] is the query string of the
    incoming request. *)
Definition code_of (args : list (string * string)) : pyval :=
  match assoc "code" args with
  | Some c => PStr c
  | None => PNone
  end.

Definition token_url : string := "https://accounts.spotify.com/api/token".

Definition token_payload (code : pyval) : list (string * pyval) :=
  [("grant_type", PStr "authorization_code");
   ("code", code);
   ("redirect_uri", SPOTIFY_REDIRECT_URI);
   ("client_id", SPOTIFY_CLIENT_ID);
   ("client_secret", SPOTIFY_CLIENT_SECRET)].

Definition token_headers : list (string * string) :=
  [("Content-Type", "application/x-www-form-urlencoded")].

Definition callback (args : list (string * string)) : M View :=
  let code := code_of args in
  let payload := token_payload code in
  let headers := token_headers in
  response ← requests_post token_url payload headers;
  if negb (status_code response =? 200) then
    mret (Body ("Error fetching access token: " ++ text response))
  else
    token_info ← lift (response_json response);
    access ← lift (dict_get token_info "access_token" PNone);
    _ ← session_set "access_token" access;
    refresh ← lift (dict_get token_info "refresh_token" PNone);
    _ ← session_set "refresh_token" refresh;
    target ← lift (url_for "profile");
    mret (Redirect target).

(** The request [callback] sends to the token endpoint. *)
Definition token_request (args : list (string * string)) : Request :=
  post_request token_url (token_payload (code_of args)) token_headers.

Definition bearer (access_token : pyval) : list (string * string) :=
  [("Authorization", "Bearer " ++ py_str access_token)].

Definition me_url : string := "https://api.spotify.com/v1/me".
Definition top_artists_url : string := "https://api.spotify.com/v1/me/top/artists".
Definition top_tracks_url : string := "https://api.spotify.com/v1/me/top/tracks".

Definition profile : M View :=
  access_token ← session_get "access_token";
  if negb (truthy access_token) then
    target ← lift (url_for "login");
    mret (Redirect target)
  else
    let headers := bearer access_token in
    user_data ← api_request me_url headers PNone;
    if negb (truthy user_data) then mret (Body "Error fetching user profile.") else
    top_artists_data ← api_request top_artists_url headers PNone;
    if negb (truthy top_artists_data) then mret (Body "Error fetching top artists.") else
    top_tracks_data ← api_request top_tracks_url headers PNone;
    if negb (truthy top_tracks_data) then mret (Body "Error fetching top tracks.") else
    mret (Rendered "profile.html"
            [("user_data", user_data);
             ("top_artists", top_artists_data);
             ("top_tracks", top_tracks_data)]).

Definition logout : M View :=
  _ ← session_clear;
  target ← lift (url_for "home");
  mret (Redirect target).

(** *** The recommendation assembler *)

Definition related_artists_url (artist_id : pyval) : string :=
  "https://api.spotify.com/v1/artists/" ++ py_str artist_id ++ "/related-artists".

Definition get_similar_artists (artist_id access_token : pyval) : M pyval :=
  let url := related_artists_url artist_id in
  let headers := bearer access_token in
  similar_artists_data ← api_request url headers PNone;
  if truthy similar_artists_data
  then lift (dict_get similar_artists_data "artists" (PList []))
  else mret (PList []).

(** The element expression of the comprehension in [get_hidden_gems]. *)
Definition gem_of (track : pyval) : Result pyval :=
  name ← getitem track (PStr "name");
  artists ← getitem track (PStr "artists");
  first ← getitem artists (PInt 0);
  artist ← getitem first (PStr "name");
  popularity ← getitem track (PStr "popularity");
  preview_url ← getitem track (PStr "preview_url");
  album ← getitem track (PStr "album");
  album_name ← getitem album (PStr "name");
  mret (PDict [("name", name); ("artist", artist); ("popularity", popularity);
               ("preview_url", preview_url); ("album", album_name)]).

(** The comprehension itself: the condition is evaluated first, the element
    only for the tracks that pass it. *)
Fixpoint gems (tracks : list pyval) : Result (list pyval) :=
  match tracks with
  | [] => Ok []
  | track :: rest =>
      popularity ← getitem track (PStr "popularity");
      hidden ← lt_int popularity 50;
      if (hidden : bool) then
        gem ← gem_of track; more ← gems rest; mret (gem :: more)
      else gems rest
  end.

Definition recommendations_url (genre : pyval) : string :=
  "https://api.spotify.com/v1/recommendations?seed_genres=" ++ py_str genre
  ++ "&limit=50".

Definition get_hidden_gems (genre access_token : pyval) (max_results : Z) : M pyval :=
  let search_url := recommendations_url genre in
  let headers := bearer access_token in
  recommendations_data ← api_request search_url headers PNone;
  if negb (truthy recommendations_data) then mret (PList []) else
  listed ← lift (getitem recommendations_data (PStr "tracks"));
  candidates ← lift (py_iter listed);
  tracks ← lift (gems candidates);
  mret (PList (slice_to tracks max_results)).

(** The requests the two helpers send. *)
Definition related_artists_request (artist_id access_token : pyval) : Request :=
  get_request (related_artists_url artist_id) (bearer access_token) PNone.

Definition recommendations_request (genre access_token : pyval) : Request :=
  get_request (recommendations_url genre) (bearer access_token) PNone.

(** The keyword default of [get_hidden_gems]. *)
Definition default_max_results : Z := 5.

(** The dict [recommend_music] builds for one related artist. *)
Definition artist_entry (similar_artist : pyval) : Result pyval :=
  name ← getitem similar_artist (PStr "name");
  genres ← getitem similar_artist (PStr "genres");
  popularity ← getitem similar_artist (PStr "popularity");
  mret (PDict [("name", name); ("type", PStr "Artist"); ("genres", genres);
               ("popularity", popularity)]).

(** The dict [recommend_music] builds for one hidden gem. *)
Definition track_entry (track : pyval) : Result pyval :=
  name ← getitem track (PStr "name");
  artist ← getitem track (PStr "artist");
  album ← getitem track (PStr "album");
  popularity ← getitem track (PStr "popularity");
  preview_url ← getitem track (PStr "preview_url");
  mret (PDict [("name", name); ("type", PStr "Track"); ("artist", artist);
               ("album", album); ("popularity", popularity);
               ("preview_url", preview_url)]).

(** [x[i], x[j] = x[j], x[i]] *)
Definition swap {A : Type} (i j : nat) (x : list A) : list A :=
  match x !! i, x !! j with
  | Some a, Some b => <[j := a]> (<[i := b]> x)
  | _, _ => x
  end.

(** [random._randbelow(n)]: the next draw, brought below [n]. *)
Definition randbelow (n : nat) : M nat := fun w =>
  (Ok (entropy (draws w) `mod` n)%nat, drawn w).

(** The loop of [random.shuffle]:
    [for i in reversed(range(1, len(x))): j = randbelow(i + 1); swap]. *)
Fixpoint shuffle_down (i : nat) (x : list pyval) : M (list pyval) :=
  match i with
  | O => mret x
  | S i' => j ← randbelow (S i); shuffle_down i' (swap i j x)
  end.

Definition random_shuffle (x : list pyval) : M (list pyval) :=
  shuffle_down (length x - 1) x.

(** Step 1 of [recommend_music]: one round of the loop over the top artists. *)
Definition similar_step (access_token : pyval) (recommended_tracks : list pyval)
  (artist : pyval) : M (list pyval) :=
  artist_id ← lift (getitem artist (PStr "id"));
  similar_artists ← get_similar_artists artist_id access_token;
  found ← lift (py_iter similar_artists);
  entries ← lift (collect artist_entry found);
  mret (recommended_tracks ++ entries)%list.

(** Step 2 of [recommend_music]: one round of the loop over the genres. *)
Definition gems_step (access_token : pyval) (recommended_tracks : list pyval)
  (genre : pyval) : M (list pyval) :=
  hidden_gems ← get_hidden_gems genre access_token default_max_results;
  found ← lift (py_iter hidden_gems);
  entries ← lift (collect track_entry found);
  mret (recommended_tracks ++ entries)%list.

Definition recommend_music (user_data access_token : pyval) : M pyval :=
  top_artists ← lift (dict_get user_data "top_artists" (PList []));
  artists ← lift (py_iter top_artists);
  recommended_tracks ← for_in artists (similar_step access_token) [];
  has_genres ← lift (dict_contains "genres" user_data);
  recommended_tracks ←
    (if (has_genres : bool) then
       listed ← lift (getitem user_data (PStr "genres"));
       genres ← lift (py_iter listed);
       for_in genres (gems_step access_token) recommended_tracks
     else mret recommended_tracks);
  recommended_tracks ← random_shuffle recommended_tracks;
  mret (PList (slice_to recommended_tracks 10)).

(** The loop of the [/recommend] route: [len(user_data)] rounds, each asking
    for the artists related to the whole list [user_data['top_artists']]. *)
Definition similar_loop (user_data access_token : pyval) (rounds : nat)
  : M (list pyval) :=
  for_in (seq 0 rounds)
    (fun similar_artists (_ : nat) =>
       top_artists ← lift (getitem user_data (PStr "top_artists"));
       similar_artist ← get_similar_artists top_artists access_token;
       mret (similar_artists ++ [similar_artist])%list)
    [].

Definition recommend : M View :=
  access_token ← session_get "access_token";
  if negb (truthy access_token) then
    target ← lift (url_for "login");
    mret (Redirect target)
  else
    let headers := bearer access_token in
    user_data ← api_request me_url headers PNone;
    if negb (truthy user_data) then mret (Body "Error fetching user profile.") else
    top_artists_data ← api_request top_artists_url headers PNone;
    if negb (truthy top_artists_data) then mret (Body "Error fetching top artists.") else
    items ← lift (getitem top_artists_data (PStr "items"));
    user_data ← lift (setitem user_data "top_artists" items);
    rounds ← lift (py_len user_data);
    similar_artists ← similar_loop user_data access_token rounds;
    recommended_tracks ← recommend_music user_data access_token;
    mret (Rendered "recommendations.html" [("tracks", recommended_tracks)]).

(** The [/recommend] route with the loop over [range(len(user_data))] taken
    out: the program to compare [recommend] with when the values the loop
    accumulates are discarded. *)
Definition recommend_without_loop : M View :=
  access_token ← session_get "access_token";
  if negb (truthy access_token) then
    target ← lift (url_for "login");
    mret (Redirect target)
  else
    let headers := bearer access_token in
    user_data ← api_request me_url headers PNone;
    if negb (truthy user_data) then mret (Body "Error fetching user profile.") else
    top_artists_data ← api_request top_artists_url headers PNone;
    if negb (truthy top_artists_data) then mret (Body "Error fetching top artists.") else
    items ← lift (getitem top_artists_data (PStr "items"));
    user_data ← lift (setitem user_data "top_artists" items);
    recommended_tracks ← recommend_music user_data access_token;
    mret (Rendered "recommendations.html" [("tracks", recommended_tracks)]).

(** An upstream that keeps to the contract of the two endpoints, whatever
    was asked before. *)
Definition obliging : Prop :=
  (forall history artist_id access_token,
     related_ok (upstream history (related_artists_request artist_id access_token))
       = true) /\
  (forall history genre access_token,
     recommendations_ok
       (upstream history (recommendations_request genre access_token)) = true).

(** An upstream whose answer depends on the request alone. *)
Definition history_blind : Prop :=
  forall history history' rq, upstream history rq = upstream history' rq.

(** An upstream in outage: every request is answered with a 4xx or 5xx
    status. *)
Definition failing : Prop :=
  forall history rq,
    exists r, upstream history rq = Answered r /\ is_http_error (status_code r) = true.

(** A track object holding an integer under [popularity], whatever else it
    holds. *)
Definition has_int_popularity (t : pyval) : bool :=
  match t with
  | PDict e =>
      match assoc "popularity" e with
      | Some (PInt _) => true
      | _ => false
      end
  | _ => false
  end.

(** A dict with exactly the five fields of a hidden gem, in the order the
    program writes them. *)
Definition gem_shaped (g : pyval) : Prop :=
  exists name artist popularity preview_url album,
    g = PDict [("name", name); ("artist", artist); ("popularity", popularity);
               ("preview_url", preview_url); ("album", album)].

(** An entry [recommend_music] may return: tagged [Artist], or tagged
    [Track] with a popularity below 50. *)
Definition recommendation (e : pyval) : Prop :=
  tagged "Artist" e \/ (tagged "Track" e /\ below_50 e).

(** The list stored under [k] in user data (empty when [k] holds none). *)
Definition listed_under (k : string) (entries : list (string * pyval)) : list pyval :=
  match assoc k entries with
  | Some (PList items) => items
  | _ => []
  end.

(** A computation that never writes to the session. *)
Definition keeps_session {A : Type} (m : M A) : Prop :=
  forall w, session (snd (m w)) = session w.

(** ** Facts about the monad *)

Lemma bind_ok {A B : Type} (m : M A) (f : A -> M B) (w w' : World) (a : A) :
  m w = (Ok a, w') -> (m ≫= f) w = f a w'.
Proof. intros H. unfold mbind, M_bind. now rewrite H. Qed.

Lemma bind_raise {A B : Type} (m : M A) (f : A -> M B) (w w' : World) (e : PyExn) :
  m w = (Raise e, w') -> (m ≫= f) w = (Raise e, w').
Proof. intros H. unfold mbind, M_bind. now rewrite H. Qed.

Lemma bind_inv {A B : Type} (m : M A) (f : A -> M B) (w w'' : World) (b : B) :
  (m ≫= f) w = (Ok b, w'') ->
  exists a w', m w = (Ok a, w') /\ f a w' = (Ok b, w'').
Proof.
  unfold mbind, M_bind. destruct (m w) as [[a|e] w'] eqn:E; intros H.
  - now exists a, w'.
  - discriminate.
Qed.

Lemma bind_assoc {A B C : Type} (m : M A) (f : A -> M B) (g : B -> M C) (w : World) :
  ((m ≫= f) ≫= g) w = (m ≫= (fun a => f a ≫= g)) w.
Proof. unfold mbind, M_bind. now destruct (m w) as [[a|e] w']. Qed.

Lemma lift_inv {A : Type} (r : Result A) (w w' : World) (a : A) :
  lift r w = (Ok a, w') -> r = Ok a /\ w' = w.
Proof. unfold lift. intros H. now inversion H. Qed.

Lemma result_bind_inv {A B : Type} (r : Result A) (f : A -> Result B) (b : B) :
  (r ≫= f) = Ok b -> exists a, r = Ok a /\ f a = Ok b.
Proof. destruct r as [a|e]; simpl; intros H; [now exists a | discriminate]. Qed.

(** ** The HTTP client adapter *)

Lemma raise_for_status_ok (r : Response) :
  is_http_error (status_code r) = false -> raise_for_status r = Ok tt.
Proof.
  unfold is_http_error, raise_for_status. intros H.
  destruct (400 <=? status_code r) eqn:E1; simpl in *.
  - rewrite H. destruct (status_code r <? 500) eqn:E2; [lia|].
    now rewrite andb_false_r.
  - destruct (500 <=? status_code r) eqn:E2; [lia | reflexivity].
Qed.

Lemma raise_for_status_error (r : Response) :
  is_http_error (status_code r) = true ->
  exists msg, raise_for_status r = Raise (HTTPError msg).
Proof.
  unfold is_http_error, raise_for_status. intros H.
  apply andb_true_iff in H as [H1 H2]. rewrite H1. simpl.
  destruct (status_code r <? 500) eqn:E2; [eauto|].
  assert ((500 <=? status_code r) = true) as -> by lia.
  rewrite H2. simpl. eauto.
Qed.

(** A 4xx or 5xx answer: one line is printed and [None] comes back. *)
Lemma api_request_error url headers params w r :
  upstream (trace w) (get_request url headers params) = Answered r ->
  is_http_error (status_code r) = true ->
  exists msg,
    raise_for_status r = Raise (HTTPError msg) /\
    api_request url headers params w =
      (Ok PNone,
       printed ("Error during API request to " ++ url ++ ": " ++ msg)
         (sent (get_request url headers params) w)).
Proof.
  intros Hup Herr. destruct (raise_for_status_error r Herr) as [msg Hmsg].
  exists msg. split; [exact Hmsg|].
  unfold api_request, try_except, requests_get, send, mbind, M_bind, lift. rewrite Hup, Hmsg. reflexivity.
Qed.

(** Any other status: the decoded body comes back. *)
Lemma api_request_ok url headers params w r v :
  upstream (trace w) (get_request url headers params) = Answered r ->
  is_http_error (status_code r) = false ->
  json_body r = Some v ->
  api_request url headers params w =
    (Ok v, sent (get_request url headers params) w).
Proof.
  intros Hup Herr Hjson.
  unfold api_request, try_except, requests_get, send, mbind, M_bind, lift.
  rewrite Hup, (raise_for_status_ok r Herr). unfold response_json.
  now rewrite Hjson.
Qed.

Lemma api_request_undecodable url headers params w r :
  upstream (trace w) (get_request url headers params) = Answered r ->
  is_http_error (status_code r) = false ->
  json_body r = None ->
  api_request url headers params w =
    (Raise JSONDecodeError, sent (get_request url headers params) w).
Proof.
  intros Hup Herr Hjson.
  unfold api_request, try_except, requests_get, send, mbind, M_bind, lift.
  rewrite Hup, (raise_for_status_ok r Herr). unfold response_json.
  now rewrite Hjson.
Qed.

Lemma api_request_unreachable url headers params w :
  upstream (trace w) (get_request url headers params) = Unreachable ->
  api_request url headers params w =
    (Raise ConnectionError, sent (get_request url headers params) w).
Proof.
  intros Hup.
  unfold api_request, try_except, requests_get, send, mbind, M_bind, lift. now rewrite Hup.
Qed.

(** C3 (as amended): a 4xx or 5xx answer makes [api_request] print one
    diagnostic line and return [None]; a network-level error is not caught
    and reaches the caller as [ConnectionError]. *)
Theorem api_request_absent_on_http_error url headers params w :
  (forall r,
     upstream (trace w) (get_request url headers params) = Answered r ->
     is_http_error (status_code r) = true ->
     exists msg,
       api_request url headers params w =
         (Ok PNone,
          printed ("Error during API request to " ++ url ++ ": " ++ msg)
            (sent (get_request url headers params) w))) /\
  (upstream (trace w) (get_request url headers params) = Unreachable ->
   api_request url headers params w =
     (Raise ConnectionError, sent (get_request url headers params) w)).
Proof.
  split.
  - intros r Hup Herr.
    destruct (api_request_error url headers params w r Hup Herr) as (msg & _ & H).
    now exists msg.
  - apply api_request_unreachable.
Qed.

(** ** The recommendation assembler *)

(** C9: when the related-artists call comes back absent, in particular when
    the upstream answers it with a 4xx or 5xx status, [get_similar_artists]
    returns the empty list and raises nothing. *)
Theorem get_similar_artists_tolerates_failure artist_id access_token w :
  (forall w',
     api_request (related_artists_url artist_id) (bearer access_token) PNone w
       = (Ok PNone, w') ->
     get_similar_artists artist_id access_token w = (Ok (PList []), w')) /\
  (forall r,
     upstream (trace w) (related_artists_request artist_id access_token)
       = Answered r ->
     is_http_error (status_code r) = true ->
     exists w', get_similar_artists artist_id access_token w = (Ok (PList []), w')).
Proof.
  assert (forall w',
     api_request (related_artists_url artist_id) (bearer access_token) PNone w
       = (Ok PNone, w') ->
     get_similar_artists artist_id access_token w = (Ok (PList []), w')) as Habsent.
  { intros w' H. unfold get_similar_artists.
    rewrite (bind_ok _ _ _ _ _ H). reflexivity. }
  split; [exact Habsent|].
  intros r Hup Herr.
  destruct (api_request_error _ _ _ _ _ Hup Herr) as (msg & _ & H).
  eexists. apply Habsent. exact H.
Qed.

Lemma slice_to_of_nat {A : Type} (l : list A) (n : nat) :
  slice_to l (Z.of_nat n) = firstn n l.
Proof.
  unfold slice_to. rewrite (proj2 (Z.leb_le 0 (Z.of_nat n)) (Nat2Z.is_nonneg n)).
  now rewrite Nat2Z.id.
Qed.

Lemma assoc_truthy (k : string) (e : list (string * pyval)) (v : pyval) :
  assoc k e = Some v -> truthy (PDict e) = true.
Proof. destruct e; [discriminate | reflexivity]. Qed.

Lemma is_track_gem (t : pyval) :
  is_track t = true ->
  gem_of t = Ok (summary t) /\
  getitem t (PStr "popularity") = Ok (PInt (popularity_of t)).
Proof.
  destruct t as [| | | | |e]; try discriminate. unfold is_track.
  destruct (assoc "name" e) as [n|] eqn:En; [|discriminate].
  destruct (assoc "artists" e) as [[| | | |[|[| | | | |a] ?]|]|] eqn:Ea;
    try discriminate.
  destruct (assoc "popularity" e) as [[| |p| | |]|] eqn:Ep; try discriminate.
  destruct (assoc "preview_url" e) as [u|] eqn:Eu; [|discriminate].
  destruct (assoc "album" e) as [[| | | | |al]|] eqn:El; try discriminate.
  intros H. apply andb_true_iff in H as [Ha Hal].
  apply bool_decide_eq_true in Ha as [an Han].
  apply bool_decide_eq_true in Hal as [aln Haln].
  unfold gem_of, summary, popularity_of, field, first_of, getitem.
  rewrite En, Ea, Ep, Eu, El. simpl. rewrite Han, Haln. simpl. auto.
Qed.

(** On well-formed tracks the comprehension is a filter followed by a map. *)
Lemma gems_filter_map (tracks : list pyval) :
  forallb is_track tracks = true ->
  gems tracks = Ok (map summary (filter (fun t => popularity_of t < 50) tracks)).
Proof.
  induction tracks as [|t rest IH]; [reflexivity|].
  simpl. intros H. apply andb_true_iff in H as [Ht Hrest].
  destruct (is_track_gem t Ht) as [Hgem Hpop].
  rewrite Hpop. simpl. rewrite (IH Hrest).
  destruct (popularity_of t <? 50) eqn:E.
  - rewrite Hgem. simpl. rewrite filter_cons_True by lia. reflexivity.
  - rewrite filter_cons_False by lia. reflexivity.
Qed.

Lemma gem_of_popularity (t g p : pyval) :
  getitem t (PStr "popularity") = Ok p ->
  gem_of t = Ok g ->
  getitem g (PStr "popularity") = Ok p.
Proof.
  intros Hp. unfold gem_of. intros H.
  repeat (apply result_bind_inv in H as (? & ? & H)).
  inversion H. simpl. congruence.
Qed.

(** Whatever the tracks look like, an entry that comes out compared below 50. *)
Lemma gems_below_50 (tracks out : list pyval) :
  gems tracks = Ok out -> Forall below_50 out.
Proof.
  revert out. induction tracks as [|t rest IH]; intros out H.
  - inversion H. constructor.
  - simpl in H.
    apply result_bind_inv in H as (p & Hp & H).
    apply result_bind_inv in H as (b & Hb & H).
    destruct b.
    + apply result_bind_inv in H as (g & Hg & H).
      apply result_bind_inv in H as (more & Hmore & H).
      inversion H. constructor; [|now apply IH].
      exists p. split; [|exact Hb]. eapply gem_of_popularity; eauto.
    + now apply IH.
Qed.

Lemma Forall_firstn {A : Type} (P : A -> Prop) (n : nat) (l : list A) :
  Forall P l -> Forall P (firstn n l).
Proof.
  intros H. revert n. induction H; intros [|n]; simpl; constructor; auto.
Qed.

Lemma get_hidden_gems_answered genre access_token max_results w r payload tracks :
  upstream (trace w) (recommendations_request genre access_token) = Answered r ->
  is_http_error (status_code r) = false ->
  json_body r = Some (PDict payload) ->
  assoc "tracks" payload = Some (PList tracks) ->
  forallb is_track tracks = true ->
  get_hidden_gems genre access_token max_results w =
    (Ok (PList (slice_to (map summary
                            (filter (fun t => popularity_of t < 50) tracks))
                  max_results)),
     sent (recommendations_request genre access_token) w).
Proof.
  intros Hup Hst Hjson Htracks Hwf. unfold get_hidden_gems.
  rewrite (bind_ok _ _ _ _ _ (api_request_ok _ _ _ _ _ _ Hup Hst Hjson)).
  rewrite (assoc_truthy _ _ _ Htracks). simpl.
  unfold mbind, M_bind, lift, getitem. rewrite Htracks. simpl.
  rewrite (gems_filter_map _ Hwf). reflexivity.
Qed.

Lemma popularity_of_summary (t : pyval) : popularity_of (summary t) = popularity_of t.
Proof. reflexivity. Qed.

(** C1: on a well-formed answer of the recommendations endpoint
    [get_hidden_gems] returns the tracks whose popularity is below 50, in
    upstream order, cut to the first [max_results]; whatever the answer, a
    list it returns has at most [max_results] entries, each of popularity
    below 50; and on an answer of ten tracks with popularities
    [10,60,20,70,30,80,40,90,49,51], with [max_results] left at its default
    5, it returns the five tracks of popularity [10,20,30,40,49], in that
    order. *)
Theorem get_hidden_gems_spec genre access_token (max_results : nat) w :
  (forall r payload tracks,
     upstream (trace w) (recommendations_request genre access_token) = Answered r ->
     is_http_error (status_code r) = false ->
     json_body r = Some (PDict payload) ->
     assoc "tracks" payload = Some (PList tracks) ->
     forallb is_track tracks = true ->
     get_hidden_gems genre access_token (Z.of_nat max_results) w =
       (Ok (PList (hidden_gems_spec max_results tracks)),
        sent (recommendations_request genre access_token) w)) /\
  (forall v w',
     get_hidden_gems genre access_token (Z.of_nat max_results) w = (Ok v, w') ->
     exists out, v = PList out /\ (length out <= max_results)%nat /\
                 Forall below_50 out) /\
  (forall r payload t0 t1 t2 t3 t4 t5 t6 t7 t8 t9,
     upstream (trace w) (recommendations_request genre access_token) = Answered r ->
     is_http_error (status_code r) = false ->
     json_body r = Some (PDict payload) ->
     assoc "tracks" payload = Some (PList [t0; t1; t2; t3; t4; t5; t6; t7; t8; t9]) ->
     forallb is_track [t0; t1; t2; t3; t4; t5; t6; t7; t8; t9] = true ->
     map popularity_of [t0; t1; t2; t3; t4; t5; t6; t7; t8; t9]
       = [10; 60; 20; 70; 30; 80; 40; 90; 49; 51] ->
     get_hidden_gems genre access_token default_max_results w =
       (Ok (PList [summary t0; summary t2; summary t4; summary t6; summary t8]),
        sent (recommendations_request genre access_token) w) /\
     map popularity_of [summary t0; summary t2; summary t4; summary t6; summary t8]
       = [10; 20; 30; 40; 49]).
Proof.
  split; [|split].
  - intros r payload tracks Hup Hst Hjson Htracks Hwf.
    rewrite (get_hidden_gems_answered _ _ _ _ _ _ _ Hup Hst Hjson Htracks Hwf).
    now rewrite slice_to_of_nat.
  - intros v w' H. unfold get_hidden_gems in H.
    apply bind_inv in H as (data & w1 & _ & H).
    destruct (negb (truthy data)).
    + inversion H. exists []. repeat split; [simpl; lia | constructor].
    + apply bind_inv in H as (listed & w2 & _ & H).
      apply bind_inv in H as (candidates & w3 & _ & H).
      apply bind_inv in H as (tracks & w4 & Hgems & H).
      apply lift_inv in Hgems as [Hgems _].
      inversion H. exists (slice_to tracks (Z.of_nat max_results)).
      rewrite slice_to_of_nat. repeat split.
      * rewrite length_firstn. lia.
      * apply Forall_firstn. now apply gems_below_50 with (tracks := candidates).
  - intros r payload t0 t1 t2 t3 t4 t5 t6 t7 t8 t9 Hup Hst Hjson Htracks Hwf Hpops.
    rewrite (get_hidden_gems_answered _ _ default_max_results _ _ _ _
               Hup Hst Hjson Htracks Hwf).
    injection Hpops as H0 H1 H2 H3 H4 H5 H6 H7 H8 H9.
    split; [|cbn [map]; rewrite !popularity_of_summary; congruence].
    change default_max_results with (Z.of_nat 5). rewrite slice_to_of_nat.
    rewrite (filter_cons_True _ t0), (filter_cons_False _ t1),
      (filter_cons_True _ t2), (filter_cons_False _ t3),
      (filter_cons_True _ t4), (filter_cons_False _ t5),
      (filter_cons_True _ t6), (filter_cons_False _ t7),
      (filter_cons_True _ t8), (filter_cons_False _ t9) by lia.
    reflexivity.
Qed.

(** ** The OAuth flow and the guarded routes *)

Lemma token_exchange_refused args w r :
  upstream (trace w) (token_request args) = Answered r ->
  status_code r <> 200 ->
  callback args w =
    (Ok (Body ("Error fetching access token: " ++ text r)),
     sent (token_request args) w).
Proof.
  intros Hup Hst. unfold callback, requests_post, send, mbind, M_bind.
  fold (token_request args). rewrite Hup.
  assert ((status_code r =? 200) = false) as -> by lia. reflexivity.
Qed.

Lemma token_exchange_granted args w r token_info :
  upstream (trace w) (token_request args) = Answered r ->
  status_code r = 200 ->
  json_body r = Some (PDict token_info) ->
  callback args w =
    (Ok (Redirect "/profile"),
     stored "refresh_token" (field "refresh_token" (PDict token_info))
       (stored "access_token" (field "access_token" (PDict token_info))
          (sent (token_request args) w))).
Proof.
  intros Hup Hst Hjson. unfold callback, requests_post, send, mbind, M_bind.
  fold (token_request args). rewrite Hup, Hst. simpl.
  unfold lift, response_json. rewrite Hjson. simpl.
  unfold field. destruct (assoc "access_token" token_info);
    destruct (assoc "refresh_token" token_info); reflexivity.
Qed.

(** C2: when the token endpoint answers 200 (with a JSON object),
    [callback] stores [access_token] and [refresh_token] in the session and
    redirects to the profile route; when it answers any other status,
    [callback] writes nothing to the session (an empty session stays empty)
    and returns the raw response body in its error message. *)
Theorem callback_token_exchange args w r :
  upstream (trace w) (token_request args) = Answered r ->
  (status_code r = 200 ->
   forall token_info, json_body r = Some (PDict token_info) ->
   exists w',
     callback args w = (Ok (Redirect "/profile"), w') /\
     session w' !! "access_token" = Some (field "access_token" (PDict token_info)) /\
     session w' !! "refresh_token" = Some (field "refresh_token" (PDict token_info))) /\
  (status_code r <> 200 ->
   exists w',
     callback args w =
       (Ok (Body ("Error fetching access token: " ++ text r)), w') /\
     session w' = session w /\
     (session w = ∅ -> session w' = ∅)).
Proof.
  intros Hup. split.
  - intros Hst token_info Hjson. eexists. split.
    + exact (token_exchange_granted args w r token_info Hup Hst Hjson).
    + simpl. split.
      * rewrite lookup_insert_ne by discriminate. apply lookup_insert_eq.
      * apply lookup_insert_eq.
  - intros Hst. eexists. split.
    + exact (token_exchange_refused args w r Hup Hst).
    + simpl. auto.
Qed.

Lemma profile_without_token w :
  truthy (default PNone (session w !! "access_token")) = false ->
  profile w = (Ok (Redirect "/login"), w).
Proof.
  intros H. unfold profile, session_get, mbind, M_bind. now rewrite H.
Qed.

Lemma recommend_without_token w :
  truthy (default PNone (session w !! "access_token")) = false ->
  recommend w = (Ok (Redirect "/login"), w).
Proof.
  intros H. unfold recommend, session_get, mbind, M_bind. now rewrite H.
Qed.

(** C5: with no [access_token] in the session (the key is absent, or its
    value is [None] or otherwise falsy), [/profile] and [/recommend] answer
    with a redirect to [/login] and leave the world as it was: nothing is
    sent upstream. *)
Theorem guarded_routes_redirect_to_login w :
  (session w !! "access_token" = None \/
   exists v, session w !! "access_token" = Some v /\ truthy v = false) ->
  profile w = (Ok (Redirect "/login"), w) /\
  recommend w = (Ok (Redirect "/login"), w) /\
  trace (snd (profile w)) = trace w /\
  trace (snd (recommend w)) = trace w.
Proof.
  intros H.
  assert (truthy (default PNone (session w !! "access_token")) = false) as Hfalsy.
  { destruct H as [-> | (v & -> & Hv)]; [reflexivity | exact Hv]. }
  rewrite (profile_without_token w Hfalsy), (recommend_without_token w Hfalsy).
  auto.
Qed.

(** C10: a 200 answer whose JSON object lacks [access_token] (or
    [refresh_token]) makes [callback] store [None] under that key and still
    redirect to [/profile]; with [access_token] stored as [None], the next
    [/profile] or [/recommend] request is redirected to [/login]. *)
Theorem callback_stores_none_for_missing_fields args w r token_info :
  upstream (trace w) (token_request args) = Answered r ->
  status_code r = 200 ->
  json_body r = Some (PDict token_info) ->
  exists w',
    callback args w = (Ok (Redirect "/profile"), w') /\
    (assoc "access_token" token_info = None ->
     session w' !! "access_token" = Some PNone /\
     profile w' = (Ok (Redirect "/login"), w') /\
     recommend w' = (Ok (Redirect "/login"), w')) /\
    (assoc "refresh_token" token_info = None ->
     session w' !! "refresh_token" = Some PNone).
Proof.
  intros Hup Hst Hjson. eexists. split.
  - exact (token_exchange_granted args w r token_info Hup Hst Hjson).
  - split.
    + intros Hnone.
      assert (session
                (stored "refresh_token" (field "refresh_token" (PDict token_info))
                   (stored "access_token" (field "access_token" (PDict token_info))
                      (sent (token_request args) w))) !! "access_token"
              = Some PNone) as Hs.
      { simpl. rewrite lookup_insert_ne by discriminate.
        rewrite lookup_insert_eq. now rewrite Hnone. }
      split; [exact Hs|].
      split; [apply profile_without_token | apply recommend_without_token];
        now rewrite Hs.
    + intros Hnone. simpl. rewrite lookup_insert_eq. now rewrite Hnone.
Qed.

(** Every call of [api_request] sends exactly its one request, and touches
    neither the session nor the random stream. *)
Lemma api_request_frame url headers params w :
  trace (snd (api_request url headers params w))
    = (trace w ++ [get_request url headers params])%list /\
  session (snd (api_request url headers params w)) = session w /\
  draws (snd (api_request url headers params w)) = draws w.
Proof.
  unfold api_request, try_except, requests_get, send, mbind, M_bind, lift.
  destruct (upstream (trace w) (get_request url headers params)) as [r|];
    [|simpl; auto].
  destruct (raise_for_status r) as [[]|e];
    [destruct (response_json r) as [v|e]|]; try destruct e; simpl; auto.
Qed.

Lemma api_request_trace url headers params w v w' :
  api_request url headers params w = (v, w') ->
  trace w' = (trace w ++ [get_request url headers params])%list.
Proof.
  intros H. destruct (api_request_frame url headers params w) as (Ht & _ & _).
  now rewrite H in Ht.
Qed.

(** ** The profile route *)

Lemma profile_with_token w access_token :
  session w !! "access_token" = Some access_token ->
  truthy access_token = true ->
  profile w =
    (user_data ← api_request me_url (bearer access_token) PNone;
     if negb (truthy user_data) then mret (Body "Error fetching user profile.") else
     top_artists_data ← api_request top_artists_url (bearer access_token) PNone;
     if negb (truthy top_artists_data) then mret (Body "Error fetching top artists.") else
     top_tracks_data ← api_request top_tracks_url (bearer access_token) PNone;
     if negb (truthy top_tracks_data) then mret (Body "Error fetching top tracks.") else
     mret (Rendered "profile.html"
             [("user_data", user_data);
              ("top_artists", top_artists_data);
              ("top_tracks", top_tracks_data)])) w.
Proof.
  intros Hs Ht. unfold profile at 1, session_get. unfold mbind at 1, M_bind at 1.
  rewrite Hs. simpl. now rewrite Ht.
Qed.

(** C6: with a token in the session, [/profile] asks for the profile, the top
    artists and the top tracks, in this order; the first of the three calls
    that comes back absent ([None], or any other falsy payload) ends the
    request with the plain-text error of its stage, and the profile view is
    rendered only after all three calls have returned a truthy payload. *)
Theorem profile_all_or_nothing w access_token :
  session w !! "access_token" = Some access_token ->
  truthy access_token = true ->
  (forall user_data w1,
     api_request me_url (bearer access_token) PNone w = (Ok user_data, w1) ->
     truthy user_data = false ->
     profile w = (Ok (Body "Error fetching user profile."), w1)) /\
  (forall user_data top_artists w1 w2,
     api_request me_url (bearer access_token) PNone w = (Ok user_data, w1) ->
     truthy user_data = true ->
     api_request top_artists_url (bearer access_token) PNone w1
       = (Ok top_artists, w2) ->
     truthy top_artists = false ->
     profile w = (Ok (Body "Error fetching top artists."), w2)) /\
  (forall user_data top_artists top_tracks w1 w2 w3,
     api_request me_url (bearer access_token) PNone w = (Ok user_data, w1) ->
     truthy user_data = true ->
     api_request top_artists_url (bearer access_token) PNone w1
       = (Ok top_artists, w2) ->
     truthy top_artists = true ->
     api_request top_tracks_url (bearer access_token) PNone w2
       = (Ok top_tracks, w3) ->
     truthy top_tracks = false ->
     profile w = (Ok (Body "Error fetching top tracks."), w3)) /\
  (forall template context w',
     profile w = (Ok (Rendered template context), w') ->
     exists user_data top_artists top_tracks w1 w2,
       api_request me_url (bearer access_token) PNone w = (Ok user_data, w1) /\
       api_request top_artists_url (bearer access_token) PNone w1
         = (Ok top_artists, w2) /\
       api_request top_tracks_url (bearer access_token) PNone w2
         = (Ok top_tracks, w') /\
       truthy user_data = true /\ truthy top_artists = true /\
       truthy top_tracks = true /\
       template = "profile.html" /\
       context = [("user_data", user_data); ("top_artists", top_artists);
                  ("top_tracks", top_tracks)] /\
       trace w' = (trace w ++
                   [get_request me_url (bearer access_token) PNone;
                    get_request top_artists_url (bearer access_token) PNone;
                    get_request top_tracks_url (bearer access_token) PNone])%list).
Proof.
  intros Hs Ht. rewrite (profile_with_token w access_token Hs Ht).
  repeat split.
  - intros u w1 H1 Hu. now rewrite (bind_ok _ _ _ _ _ H1), Hu.
  - intros u a w1 w2 H1 Hu H2 Ha.
    rewrite (bind_ok _ _ _ _ _ H1), Hu. simpl.
    now rewrite (bind_ok _ _ _ _ _ H2), Ha.
  - intros u a t w1 w2 w3 H1 Hu H2 Ha H3 Htt.
    rewrite (bind_ok _ _ _ _ _ H1), Hu. simpl.
    rewrite (bind_ok _ _ _ _ _ H2), Ha. simpl.
    now rewrite (bind_ok _ _ _ _ _ H3), Htt.
  - intros template context w' H.
    apply bind_inv in H as (u & w1 & H1 & H).
    destruct (truthy u) eqn:Hu; simpl in H; [|discriminate].
    apply bind_inv in H as (a & w2 & H2 & H).
    destruct (truthy a) eqn:Ha; simpl in H; [|discriminate].
    apply bind_inv in H as (t & w3 & H3 & H).
    destruct (truthy t) eqn:Htt; simpl in H; [|discriminate].
    inversion H; subst.
    exists u, a, t, w1, w2. repeat split; auto.
    rewrite (api_request_trace _ _ _ _ _ _ H3), (api_request_trace _ _ _ _ _ _ H2),
      (api_request_trace _ _ _ _ _ _ H1).
    now rewrite <- !app_assoc.
Qed.

(** ** Shuffling *)

Lemma swap_permutes {A : Type} (i j : nat) (x : list A) : swap i j x ≡ₚ x.
Proof.
  unfold swap. destruct (x !! i) as [a|] eqn:Ei; [|reflexivity].
  destruct (x !! j) as [b|] eqn:Ej; [|reflexivity].
  now apply Permutation_insert_swap.
Qed.

(** [random.shuffle] never raises, rearranges its list, and only consumes
    draws. *)
Lemma shuffle_down_permutes (i : nat) (x : list pyval) (w : World) :
  exists y w',
    shuffle_down i x w = (Ok y, w') /\ y ≡ₚ x /\
    trace w' = trace w /\ stdout w' = stdout w /\ session w' = session w.
Proof.
  revert x w. induction i as [|i IH]; intros x w.
  - exists x, w. repeat split; reflexivity.
  - simpl. unfold mbind, M_bind, randbelow.
    destruct (IH (swap (S i) (entropy (draws w) `mod` S (S i))%nat x) (drawn w))
      as (y & w' & Hrun & Hperm & Ht & Ho & Hs).
    exists y, w'. repeat split; try assumption.
    now rewrite Hperm, swap_permutes.
Qed.

Lemma random_shuffle_permutes (x : list pyval) (w : World) :
  exists y w',
    random_shuffle x w = (Ok y, w') /\ y ≡ₚ x /\
    trace w' = trace w /\ stdout w' = stdout w /\ session w' = session w.
Proof. apply shuffle_down_permutes. Qed.

(** ** [recommend_music] *)

Lemma length_slice_to_nat {A : Type} (l : list A) (n : nat) :
  (length (slice_to l (Z.of_nat n)) <= n)%nat.
Proof. rewrite slice_to_of_nat, length_firstn. lia. Qed.

Lemma recommend_music_bounded user_data access_token w v w' :
  recommend_music user_data access_token w = (Ok v, w') ->
  exists out, v = PList out /\ (length out <= 10)%nat.
Proof.
  unfold recommend_music. intros H.
  apply bind_inv in H as (top_artists & w1 & _ & H).
  apply bind_inv in H as (artists & w2 & _ & H).
  apply bind_inv in H as (similar & w3 & _ & H).
  apply bind_inv in H as (has_genres & w4 & _ & H).
  apply bind_inv in H as (candidates & w5 & _ & H).
  apply bind_inv in H as (shuffled & w6 & _ & H).
  inversion H. exists (slice_to shuffled 10). split; [reflexivity|].
  apply (length_slice_to_nat shuffled 10).
Qed.

Lemma collect_artist_entry_tagged (found entries : list pyval) :
  collect artist_entry found = Ok entries -> Forall (tagged "Artist") entries.
Proof.
  revert entries. induction found as [|a rest IH]; intros entries H.
  - inversion H. constructor.
  - simpl in H. apply result_bind_inv in H as (e & He & H).
    apply result_bind_inv in H as (es & Hes & H). inversion H.
    constructor; [|now apply IH].
    unfold artist_entry in He.
    repeat (apply result_bind_inv in He as (? & ? & He)).
    inversion He. reflexivity.
Qed.

Lemma similar_step_tagged access_token acc artist w out w' :
  similar_step access_token acc artist w = (Ok out, w') ->
  Forall (tagged "Artist") acc -> Forall (tagged "Artist") out.
Proof.
  unfold similar_step. intros H Hacc.
  apply bind_inv in H as (artist_id & w1 & _ & H).
  apply bind_inv in H as (similar & w2 & _ & H).
  apply bind_inv in H as (found & w3 & _ & H).
  apply bind_inv in H as (entries & w4 & Hentries & H).
  apply lift_inv in Hentries as [Hentries _].
  inversion H. apply Forall_app_2; [exact Hacc|].
  now apply collect_artist_entry_tagged with (found := found).
Qed.

(** A loop keeps what each of its rounds keeps. *)
Lemma for_in_invariant {S X : Type} (P : S -> Prop) (body : S -> X -> M S) :
  (forall s x w s' w', body s x w = (Ok s', w') -> P s -> P s') ->
  forall xs s w s' w', for_in xs body s w = (Ok s', w') -> P s -> P s'.
Proof.
  intros Hbody xs. induction xs as [|x rest IH]; intros s w s' w' H Hs.
  - inversion H. now subst.
  - simpl in H. apply bind_inv in H as (s1 & w1 & H1 & H).
    eapply IH; [exact H|]. eapply Hbody; eauto.
Qed.

Lemma recommend_music_skips_genres entries access_token w artists found w1 :
  assoc "genres" entries = None ->
  py_iter (default (PList []) (assoc "top_artists" entries)) = Ok artists ->
  for_in artists (similar_step access_token) [] w = (Ok found, w1) ->
  recommend_music (PDict entries) access_token w =
    (shuffled ← random_shuffle found; mret (PList (slice_to shuffled 10))) w1.
Proof.
  intros Hgenres Hiter Hloop. unfold recommend_music, dict_get, dict_contains.
  unfold mbind at 1, M_bind at 1, lift at 1.
  assert (match assoc "top_artists" entries with
          | Some x => x
          | None => PList []
          end = default (PList []) (assoc "top_artists" entries)) as ->
    by now destruct (assoc "top_artists" entries).
  unfold mbind at 1, M_bind at 1, lift at 1. rewrite Hiter.
  rewrite (bind_ok _ _ _ _ _ Hloop).
  unfold mbind at 1, M_bind at 1, lift at 1. rewrite Hgenres. reflexivity.
Qed.

Lemma similar_loop_tagged access_token artists found w w1 :
  for_in artists (similar_step access_token) [] w = (Ok found, w1) ->
  Forall (tagged "Artist") found.
Proof.
  intros Hloop.
  eapply (for_in_invariant (Forall (tagged "Artist"))); [|exact Hloop|constructor].
  intros s x w2 s' w2' Hstep Hs. eapply similar_step_tagged; eauto.
Qed.

(** C8: for user data without a [genres] field, [recommend_music] skips the
    genre strategy without raising: once the loop over the top artists has
    produced its entries, the call returns the first ten of a rearrangement
    of exactly these entries and sends nothing more upstream; and every list
    the call returns holds entries tagged [Artist] only. *)
Theorem recommend_music_without_genres entries access_token w :
  assoc "genres" entries = None ->
  (forall artists found w1,
     py_iter (default (PList []) (assoc "top_artists" entries)) = Ok artists ->
     for_in artists (similar_step access_token) [] w = (Ok found, w1) ->
     exists shuffled w',
       recommend_music (PDict entries) access_token w
         = (Ok (PList (firstn 10 shuffled)), w') /\
       shuffled ≡ₚ found /\
       trace w' = trace w1) /\
  (forall v w',
     recommend_music (PDict entries) access_token w = (Ok v, w') ->
     exists out, v = PList out /\ Forall (tagged "Artist") out).
Proof.
  intros Hgenres. split.
  - intros artists found w1 Hiter Hloop.
    destruct (random_shuffle_permutes found w1)
      as (shuffled & w' & Hshuffle & Hperm & Htrace & _ & _).
    exists shuffled, w'. repeat split; try assumption.
    rewrite (recommend_music_skips_genres _ _ _ _ _ _ Hgenres Hiter Hloop).
    now rewrite (bind_ok _ _ _ _ _ Hshuffle).
  - intros v w' H. pose proof H as Hrun. unfold recommend_music in H.
    apply bind_inv in H as (top_artists & w0 & Htop & H).
    apply lift_inv in Htop as [Htop ->].
    apply bind_inv in H as (artists & w0 & Hiter & H).
    apply lift_inv in Hiter as [Hiter ->].
    apply bind_inv in H as (found & w1 & Hloop & _).
    assert (top_artists = default (PList []) (assoc "top_artists" entries)) as ->.
    { unfold dict_get in Htop. inversion Htop.
      now destruct (assoc "top_artists" entries). }
    rewrite (recommend_music_skips_genres _ _ _ _ _ _ Hgenres Hiter Hloop) in Hrun.
    destruct (random_shuffle_permutes found w1)
      as (shuffled & w2 & Hshuffle & Hperm & _).
    rewrite (bind_ok _ _ _ _ _ Hshuffle) in Hrun. inversion Hrun.
    exists (slice_to shuffled 10). split; [reflexivity|].
    apply Forall_firstn. rewrite Hperm.
    now apply similar_loop_tagged with (1 := Hloop).
Qed.

(** *** [recommend_music] returns when the upstream keeps to its contract *)

Lemma collect_ok {X Y : Type} (f : X -> Result Y) (xs : list X) :
  Forall (fun x => exists y, f x = Ok y) xs -> exists ys, collect f xs = Ok ys.
Proof.
  induction 1 as [|x rest [y Hy] _ [ys Hys]]; simpl; [eauto|].
  rewrite Hy. simpl. rewrite Hys. simpl. eauto.
Qed.

Lemma artist_entry_ok (a : pyval) :
  is_artist a = true -> exists e, artist_entry a = Ok e.
Proof.
  destruct a as [| | | | |e]; try discriminate. unfold is_artist.
  intros H. apply andb_true_iff in H as [H Hp]. apply andb_true_iff in H as [Hn Hg].
  apply bool_decide_eq_true in Hn as [n Hn].
  apply bool_decide_eq_true in Hg as [g Hg].
  apply bool_decide_eq_true in Hp as [p' Hp].
  unfold artist_entry, getitem. rewrite Hn, Hg, Hp. simpl. eauto.
Qed.

Lemma get_similar_artists_obliged artist_id access_token w :
  related_ok (upstream (trace w) (related_artists_request artist_id access_token))
    = true ->
  exists artists w',
    get_similar_artists artist_id access_token w = (Ok (PList artists), w') /\
    forallb is_artist artists = true.
Proof.
  unfold related_ok. intros H.
  destruct (upstream (trace w) (related_artists_request artist_id access_token))
    as [r|] eqn:Hup; [|discriminate].
  destruct (is_http_error (status_code r)) eqn:Hst.
  - destruct (api_request_error _ _ _ _ _ Hup Hst) as (msg & _ & Hreq).
    exists [], (printed
                  ("Error during API request to " ++ related_artists_url artist_id
                   ++ ": " ++ msg)
                  (sent (related_artists_request artist_id access_token) w)).
    split; [|reflexivity].
    unfold get_similar_artists. now rewrite (bind_ok _ _ _ _ _ Hreq).
  - simpl in H. destruct (json_body r) as [[| | | | |e]|] eqn:Hjson; try discriminate.
    destruct (assoc "artists" e) as [[| | | |artists|]|] eqn:Ha; try discriminate.
    exists artists, (sent (related_artists_request artist_id access_token) w).
    split; [|exact H].
    unfold get_similar_artists.
    rewrite (bind_ok _ _ _ _ _ (api_request_ok _ _ _ _ _ _ Hup Hst Hjson)).
    rewrite (assoc_truthy _ _ _ Ha). unfold lift, dict_get. now rewrite Ha.
Qed.

Lemma similar_step_obliged access_token acc artist w :
  (forall history artist_id,
     related_ok (upstream history (related_artists_request artist_id access_token))
       = true) ->
  has_id artist = true ->
  exists out w', similar_step access_token acc artist w = (Ok out, w').
Proof.
  intros Hob Hid. destruct artist as [| | | | |e]; try discriminate.
  apply bool_decide_eq_true in Hid as [artist_id Hid].
  destruct (get_similar_artists_obliged artist_id access_token w (Hob _ _))
    as (artists & w' & Hget & Hwf).
  destruct (collect_ok artist_entry artists) as [entries Hentries].
  { apply Forall_forall. intros a Ha. apply artist_entry_ok.
    rewrite forallb_forall in Hwf. apply Hwf. now apply list_elem_of_In. }
  exists (acc ++ entries)%list, w'.
  unfold similar_step. unfold mbind at 1, M_bind at 1, lift at 1, getitem.
  rewrite Hid. rewrite (bind_ok _ _ _ _ _ Hget).
  unfold mbind, M_bind, lift, py_iter. now rewrite Hentries.
Qed.

(** The entries [gems] builds have exactly the five fields of a hidden gem. *)
Lemma gems_entries_ok (tracks out : list pyval) :
  gems tracks = Ok out -> Forall (fun g => exists e, track_entry g = Ok e) out.
Proof.
  revert out. induction tracks as [|t rest IH]; intros out H.
  - inversion H. constructor.
  - simpl in H.
    apply result_bind_inv in H as (p & Hp & H).
    apply result_bind_inv in H as (b & Hb & H).
    destruct b; [|now apply IH].
    apply result_bind_inv in H as (g & Hg & H).
    apply result_bind_inv in H as (more & Hmore & H).
    inversion H. constructor; [|now apply IH].
    unfold gem_of in Hg.
    repeat (apply result_bind_inv in Hg as (? & ? & Hg)).
    inversion Hg. unfold track_entry. simpl. eauto.
Qed.

Lemma get_hidden_gems_obliged genre access_token max_results w :
  recommendations_ok
    (upstream (trace w) (recommendations_request genre access_token)) = true ->
  exists out w',
    get_hidden_gems genre access_token max_results w = (Ok (PList out), w') /\
    Forall (fun g => exists e, track_entry g = Ok e) out.
Proof.
  unfold recommendations_ok. intros H.
  destruct (upstream (trace w) (recommendations_request genre access_token))
    as [r|] eqn:Hup; [|discriminate].
  destruct (is_http_error (status_code r)) eqn:Hst.
  - destruct (api_request_error _ _ _ _ _ Hup Hst) as (msg & _ & Hreq).
    eexists [], _. split; [|constructor].
    unfold get_hidden_gems. rewrite (bind_ok _ _ _ _ _ Hreq). reflexivity.
  - simpl in H. destruct (json_body r) as [[| | | | |e]|] eqn:Hjson; try discriminate.
    destruct (assoc "tracks" e) as [[| | | |tracks|]|] eqn:Ht; try discriminate.
    eexists _, _. split.
    + exact (get_hidden_gems_answered _ _ max_results _ _ _ _ Hup Hst Hjson Ht H).
    + unfold slice_to.
      destruct (0 <=? max_results); apply Forall_firstn;
        apply gems_entries_ok with (tracks := tracks); now apply gems_filter_map.
Qed.

Lemma gems_step_obliged access_token acc genre w :
  (forall history genre,
     recommendations_ok
       (upstream history (recommendations_request genre access_token)) = true) ->
  exists out w', gems_step access_token acc genre w = (Ok out, w').
Proof.
  intros Hob.
  destruct (get_hidden_gems_obliged genre access_token default_max_results w
              (Hob _ _)) as (found & w' & Hget & Hwf).
  destruct (collect_ok track_entry found Hwf) as [entries Hentries].
  exists (acc ++ entries)%list, w'.
  unfold gems_step. rewrite (bind_ok _ _ _ _ _ Hget).
  unfold mbind, M_bind, lift, py_iter. now rewrite Hentries.
Qed.

(** A loop returns when each of its rounds does. *)
Lemma for_in_returns {S X : Type} (P : X -> Prop) (body : S -> X -> M S) :
  (forall s x w, P x -> exists s' w', body s x w = (Ok s', w')) ->
  forall xs s w, Forall P xs -> exists s' w', for_in xs body s w = (Ok s', w').
Proof.
  intros Hbody xs. induction xs as [|x rest IH]; intros s w Hxs.
  - simpl. now exists s, w.
  - inversion Hxs as [|? ? Hx Hrest]; subst. simpl.
    destruct (Hbody s x w Hx) as (s1 & w1 & Hrun).
    rewrite (bind_ok _ _ _ _ _ Hrun). now apply IH.
Qed.

Lemma recommend_music_returns entries access_token w :
  obliging -> user_data_ok entries = true ->
  exists out w', recommend_music (PDict entries) access_token w = (Ok (PList out), w').
Proof.
  intros [Hrel Hrec] Hud. apply andb_true_iff in Hud as [Htop Hgen].
  assert (exists artists,
            py_iter (match assoc "top_artists" entries with
                     | Some x => x
                     | None => PList []
                     end) = Ok artists /\ Forall (fun a => has_id a = true) artists)
    as (artists & Hiter & Hids).
  { destruct (assoc "top_artists" entries) as [[| | | |l|]|]; try discriminate.
    - exists l. split; [reflexivity|]. apply Forall_forall. intros a Ha.
      rewrite forallb_forall in Htop. apply Htop. now apply list_elem_of_In.
    - exists []. split; [reflexivity | constructor]. }
  destruct (for_in_returns (fun a => has_id a = true) (similar_step access_token))
    with (xs := artists) (s := @nil pyval) (w := w) as (found & w1 & Hloop);
    [intros; now apply similar_step_obliged | exact Hids |].
  assert (exists candidates w2,
            (has_genres ← lift (dict_contains "genres" (PDict entries));
             if (has_genres : bool) then
               listed ← lift (getitem (PDict entries) (PStr "genres"));
               genres ← lift (py_iter listed);
               for_in genres (gems_step access_token) found
             else mret found) w1 = (Ok candidates, w2))
    as (candidates & w2 & Hgenres).
  { unfold mbind at 1, M_bind at 1, lift at 1, dict_contains.
    destruct (assoc "genres" entries) as [[| | | |genres|]|] eqn:Hg;
      try discriminate.
    - rewrite bool_decide_eq_true_2 by eauto.
      unfold mbind at 1, M_bind at 1, lift at 1, getitem. rewrite Hg.
      unfold mbind at 1, M_bind at 1, lift at 1, py_iter.
      apply (for_in_returns (fun _ => True)); [|apply Forall_true; auto].
      intros; now apply gems_step_obliged.
    - rewrite bool_decide_eq_false_2 by (intros [? ?]; discriminate).
      now exists found, w1. }
  destruct (random_shuffle_permutes candidates w2) as (shuffled & w3 & Hshuffle & _).
  exists (slice_to shuffled 10), w3.
  unfold recommend_music, dict_get.
  unfold mbind at 1, M_bind at 1, lift at 1.
  unfold mbind at 1, M_bind at 1, lift at 1. rewrite Hiter.
  rewrite (bind_ok _ _ _ _ _ Hloop), <- bind_assoc.
  rewrite (bind_ok _ _ _ _ _ Hgenres), (bind_ok _ _ _ _ _ Hshuffle).
  reflexivity.
Qed.

(** C4: a list [recommend_music] returns has at most ten entries, however
    many artists and genres the user data names and however many candidates
    the upstream supplies for them; and it does return such a list whenever
    the user data is well formed and the upstream keeps to its contract. *)
Theorem recommend_music_at_most_ten user_data access_token w :
  (forall v w',
     recommend_music user_data access_token w = (Ok v, w') ->
     exists out, v = PList out /\ (length out <= 10)%nat) /\
  (forall entries,
     user_data = PDict entries -> user_data_ok entries = true -> obliging ->
     exists out w',
       recommend_music user_data access_token w = (Ok (PList out), w') /\
       (length out <= 10)%nat).
Proof.
  split.
  - intros v w'. apply recommend_music_bounded.
  - intros entries -> Hud Hob.
    destruct (recommend_music_returns entries access_token w Hob Hud)
      as (out & w' & H).
    exists out, w'. split; [exact H|].
    destruct (recommend_music_bounded _ _ _ _ _ H) as (out' & Heq & Hlen).
    now inversion Heq.
Qed.

(** ** The loop of the [/recommend] route *)

Lemma agree_refl w : agree w w.
Proof. now split. Qed.

Lemma agree_trans w1 w2 w3 : agree w1 w2 -> agree w2 w3 -> agree w1 w3.
Proof. intros [? ?] [? ?]. split; congruence. Qed.

Lemma agree_sym w1 w2 : agree w1 w2 -> agree w2 w1.
Proof. intros [? ?]. now split. Qed.

Lemma blind_ret {A : Type} (a : A) : blind (mret a : M A).
Proof. intros w1 w2 H. now split. Qed.

Lemma blind_lift {A : Type} (r : Result A) : blind (lift r).
Proof. intros w1 w2 H. now split. Qed.

Lemma blind_bind {A B : Type} (m : M A) (f : A -> M B) :
  blind m -> (forall a, blind (f a)) -> blind (m ≫= f).
Proof.
  intros Hm Hf w1 w2 H. unfold mbind, M_bind.
  destruct (Hm w1 w2 H) as [Hres Hw].
  destruct (m w1) as [[a1|e1] w1'], (m w2) as [[a2|e2] w2']; simpl in *;
    try discriminate.
  - inversion Hres; subst. now apply Hf.
  - inversion Hres; subst. now split.
Qed.

Lemma blind_print line : blind (print line).
Proof. intros w1 w2 H. now split. Qed.

Lemma blind_randbelow n : blind (randbelow n).
Proof.
  intros w1 w2 [Hs Hd]. unfold randbelow. simpl. rewrite Hd.
  repeat split; simpl; congruence.
Qed.

Lemma blind_send rq : history_blind -> blind (send rq).
Proof.
  intros Hb w1 w2 H. unfold send. rewrite (Hb (trace w1) (trace w2) rq).
  destruct (upstream (trace w2) rq); now split.
Qed.

Lemma blind_try_except {A : Type} (body : M A) (handler : PyExn -> option (M A)) :
  blind body ->
  (forall e h, handler e = Some h -> blind h) ->
  blind (try_except body handler).
Proof.
  intros Hbody Hh w1 w2 H. unfold try_except.
  destruct (Hbody w1 w2 H) as [Hres Hw].
  destruct (body w1) as [[a1|e1] w1'], (body w2) as [[a2|e2] w2']; simpl in *;
    try discriminate.
  - now split.
  - inversion Hres; subst.
    destruct (handler e2) as [h|] eqn:E; [now apply (Hh e2 h E) | now split].
Qed.

Lemma blind_for_in {S X : Type} (body : S -> X -> M S) (xs : list X) :
  (forall s x, blind (body s x)) -> forall s, blind (for_in xs body s).
Proof.
  intros Hbody. induction xs as [|x rest IH]; intros s; simpl.
  - apply blind_ret.
  - apply blind_bind; [apply Hbody | exact IH].
Qed.

Lemma blind_api_request url headers params :
  history_blind -> blind (api_request url headers params).
Proof.
  intros Hb. unfold api_request. apply blind_try_except.
  - apply blind_bind; [now apply blind_send|]. intros response.
    apply blind_bind; intros; apply blind_lift.
  - intros e h He. destruct e; try discriminate. inversion He.
    apply blind_bind; [apply blind_print | intros; apply blind_ret].
Qed.

Lemma blind_get_similar_artists artist_id access_token :
  history_blind -> blind (get_similar_artists artist_id access_token).
Proof.
  intros Hb. unfold get_similar_artists.
  apply blind_bind; [now apply blind_api_request|]. intros data.
  destruct (truthy data); [apply blind_lift | apply blind_ret].
Qed.

Lemma blind_get_hidden_gems genre access_token max_results :
  history_blind -> blind (get_hidden_gems genre access_token max_results).
Proof.
  intros Hb. unfold get_hidden_gems.
  apply blind_bind; [now apply blind_api_request|]. intros data.
  destruct (negb (truthy data)); [apply blind_ret|].
  repeat (apply blind_bind; [apply blind_lift|]; intros ?). apply blind_ret.
Qed.

Lemma blind_shuffle_down i x : blind (shuffle_down i x).
Proof.
  revert x. induction i as [|i IH]; intros x; simpl.
  - apply blind_ret.
  - apply blind_bind; [apply blind_randbelow | intros; apply IH].
Qed.

Lemma blind_recommend_music user_data access_token :
  history_blind -> blind (recommend_music user_data access_token).
Proof.
  intros Hb. unfold recommend_music.
  apply blind_bind; [apply blind_lift|]; intros top_artists.
  apply blind_bind; [apply blind_lift|]; intros artists.
  apply blind_bind.
  { apply blind_for_in. intros acc artist. unfold similar_step.
    apply blind_bind; [apply blind_lift|]; intros artist_id.
    apply blind_bind; [now apply blind_get_similar_artists|]; intros similar.
    repeat (apply blind_bind; [apply blind_lift|]; intros ?). apply blind_ret. }
  intros found.
  apply blind_bind; [apply blind_lift|]; intros has_genres.
  apply blind_bind.
  { destruct has_genres; [|apply blind_ret].
    apply blind_bind; [apply blind_lift|]; intros listed.
    apply blind_bind; [apply blind_lift|]; intros genres.
    apply blind_for_in. intros acc genre. unfold gems_step.
    apply blind_bind; [now apply blind_get_hidden_gems|]; intros hidden.
    repeat (apply blind_bind; [apply blind_lift|]; intros ?). apply blind_ret. }
  intros candidates.
  apply blind_bind; [apply blind_shuffle_down|]; intros shuffled.
  apply blind_ret.
Qed.

Lemma quiet_ret {A : Type} (a : A) : quiet (mret a : M A).
Proof. intros w. apply agree_refl. Qed.

Lemma quiet_lift {A : Type} (r : Result A) : quiet (lift r).
Proof. intros w. apply agree_refl. Qed.

Lemma quiet_bind {A B : Type} (m : M A) (f : A -> M B) :
  quiet m -> (forall a, quiet (f a)) -> quiet (m ≫= f).
Proof.
  intros Hm Hf w. unfold mbind, M_bind. specialize (Hm w).
  destruct (m w) as [[a|e] w1]; simpl in *; [|exact Hm].
  eapply agree_trans; [exact Hm | apply Hf].
Qed.

Lemma quiet_for_in {S X : Type} (body : S -> X -> M S) (xs : list X) :
  (forall s x, quiet (body s x)) -> forall s, quiet (for_in xs body s).
Proof.
  intros Hbody. induction xs as [|x rest IH]; intros s; simpl.
  - apply quiet_ret.
  - apply quiet_bind; [apply Hbody | exact IH].
Qed.

Lemma quiet_api_request url headers params : quiet (api_request url headers params).
Proof.
  intros w. destruct (api_request_frame url headers params w) as (_ & Hs & Hd).
  now split.
Qed.

Lemma quiet_get_similar_artists artist_id access_token :
  quiet (get_similar_artists artist_id access_token).
Proof.
  unfold get_similar_artists. apply quiet_bind; [apply quiet_api_request|].
  intros data. destruct (truthy data); [apply quiet_lift | apply quiet_ret].
Qed.

(** The loop only sends and prints: it leaves the session and the random
    stream as they were. *)
Lemma quiet_similar_loop user_data access_token rounds :
  quiet (similar_loop user_data access_token rounds).
Proof.
  unfold similar_loop. apply quiet_for_in. intros acc i.
  apply quiet_bind; [apply quiet_lift|]; intros top_artists.
  apply quiet_bind; [apply quiet_get_similar_artists|]; intros similar.
  apply quiet_ret.
Qed.

(** C7: the values the loop of [/recommend] accumulates are never used.
    Whenever the route renders, the rendered track list is the output of
    [recommend_music] on the user data and the token, run after the loop;
    and over an upstream whose answers depend on the request alone, whatever
    the route returns is what the route without the loop returns. *)
Theorem recommend_loop_is_unused w :
  (forall template context w',
     recommend w = (Ok (Rendered template context), w') ->
     exists profile_data top_artists_data items user_data rounds similar_artists
            tracks w1 w2 w3,
       let access_token := default PNone (session w !! "access_token") in
       api_request me_url (bearer access_token) PNone w = (Ok profile_data, w1) /\
       api_request top_artists_url (bearer access_token) PNone w1
         = (Ok top_artists_data, w2) /\
       getitem top_artists_data (PStr "items") = Ok items /\
       setitem profile_data "top_artists" items = Ok user_data /\
       py_len user_data = Ok rounds /\
       similar_loop user_data access_token rounds w2 = (Ok similar_artists, w3) /\
       recommend_music user_data access_token w3 = (Ok tracks, w') /\
       template = "recommendations.html" /\
       context = [("tracks", tracks)]) /\
  (history_blind ->
   forall view w',
     recommend w = (Ok view, w') ->
     exists w'', recommend_without_loop w = (Ok view, w'')).
Proof.
  split.
  - intros template context w' H. unfold recommend in H.
    apply bind_inv in H as (tok & w0 & Hget & H).
    unfold session_get in Hget. inversion Hget; subst w0 tok. clear Hget.
    destruct (negb (truthy (default PNone (session w !! "access_token")))).
    { apply bind_inv in H as (target & w0 & _ & H). discriminate. }
    apply bind_inv in H as (profile_data & w1 & H1 & H).
    destruct (negb (truthy profile_data)); [discriminate|].
    apply bind_inv in H as (top_artists_data & w2 & H2 & H).
    destruct (negb (truthy top_artists_data)); [discriminate|].
    apply bind_inv in H as (items & w2' & Hitems & H).
    apply lift_inv in Hitems as [Hitems ->].
    apply bind_inv in H as (user_data & w2' & Hset & H).
    apply lift_inv in Hset as [Hset ->].
    apply bind_inv in H as (rounds & w2' & Hlen & H).
    apply lift_inv in Hlen as [Hlen ->].
    apply bind_inv in H as (similar_artists & w3 & Hloop & H).
    apply bind_inv in H as (tracks & w4 & Hmusic & H).
    inversion H; subst.
    exists profile_data, top_artists_data, items, user_data, rounds,
      similar_artists, tracks, w1, w2, w3.
    simpl. repeat split; assumption.
  - intros Hb view w' H. unfold recommend in H. unfold recommend_without_loop.
    apply bind_inv in H as (tok & w0 & Hget & H).
    rewrite (bind_ok _ _ _ _ _ Hget).
    destruct (negb (truthy tok)); [eauto|].
    apply bind_inv in H as (profile_data & w1 & H1 & H).
    rewrite (bind_ok _ _ _ _ _ H1).
    destruct (negb (truthy profile_data)); [eauto|].
    apply bind_inv in H as (top_artists_data & w2 & H2 & H).
    rewrite (bind_ok _ _ _ _ _ H2).
    destruct (negb (truthy top_artists_data)); [eauto|].
    apply bind_inv in H as (items & w3 & Hitems & H).
    rewrite (bind_ok _ _ _ _ _ Hitems).
    apply bind_inv in H as (user_data & w4 & Hset & H).
    rewrite (bind_ok _ _ _ _ _ Hset).
    apply bind_inv in H as (rounds & w5 & Hlen & H).
    apply lift_inv in Hlen as [Hlen ->].
    apply bind_inv in H as (similar_artists & w6 & Hloop & H).
    apply bind_inv in H as (tracks & w7 & Hmusic & H).
    pose proof (quiet_similar_loop user_data tok rounds w4) as Hquiet.
    rewrite Hloop in Hquiet. simpl in Hquiet.
    destruct (blind_recommend_music user_data tok Hb w4 w6 Hquiet) as [Hsame _].
    rewrite Hmusic in Hsame. simpl in Hsame.
    destruct (recommend_music user_data tok w4) as [res w8] eqn:Hmusic'.
    simpl in Hsame. subst res.
    rewrite (bind_ok _ _ _ _ _ Hmusic').
    inversion H; subst. now exists w8.
Qed.

(** ** More on the HTTP client adapter *)



(** X2: a call answered with a non-error status whose body decodes to an
    empty payload ([null], [{}], [[]], [0], [""], [false]) makes [/profile]
    report a failed profile fetch, although nothing failed and nothing is
    printed. *)
Theorem profile_empty_payload_is_failure w access_token r v :
  session w !! "access_token" = Some access_token ->
  truthy access_token = true ->
  upstream (trace w) (get_request me_url (bearer access_token) PNone) = Answered r ->
  is_http_error (status_code r) = false ->
  json_body r = Some v ->
  truthy v = false ->
  profile w =
    (Ok (Body "Error fetching user profile."),
     sent (get_request me_url (bearer access_token) PNone) w).
Proof.
  intros Hs Ht Hup Hst Hjson Hv.
  rewrite (profile_with_token w access_token Hs Ht).
  rewrite (bind_ok _ _ _ _ _ (api_request_ok _ _ _ _ _ _ Hup Hst Hjson)).
  now rewrite Hv.
Qed.

(** ** More on [get_similar_artists] *)

(** X3: on an answer that is not an HTTP error, [get_similar_artists]
    returns whatever the decoded object holds under [artists], unvalidated;
    it returns the empty list when the key is missing or the payload is
    empty; and it raises [AttributeError] on a non-empty payload that is not
    an object. *)
Theorem get_similar_artists_answered artist_id access_token w r v :
  upstream (trace w) (related_artists_request artist_id access_token) = Answered r ->
  is_http_error (status_code r) = false ->
  json_body r = Some v ->
  (forall entries x,
     v = PDict entries -> assoc "artists" entries = Some x ->
     get_similar_artists artist_id access_token w
       = (Ok x, sent (related_artists_request artist_id access_token) w)) /\
  (forall entries,
     v = PDict entries -> assoc "artists" entries = None ->
     get_similar_artists artist_id access_token w
       = (Ok (PList []), sent (related_artists_request artist_id access_token) w)) /\
  (truthy v = false ->
   get_similar_artists artist_id access_token w
     = (Ok (PList []), sent (related_artists_request artist_id access_token) w)) /\
  (truthy v = true -> (forall entries, v <> PDict entries) ->
   get_similar_artists artist_id access_token w
     = (Raise AttributeError,
        sent (related_artists_request artist_id access_token) w)).
Proof.
  intros Hup Hst Hjson.
  pose proof (api_request_ok _ _ _ _ _ _ Hup Hst Hjson) as Hreq.
  unfold get_similar_artists. rewrite (bind_ok _ _ _ _ _ Hreq).
  repeat split.
  - intros entries x -> Hx. rewrite (assoc_truthy _ _ _ Hx).
    unfold lift, dict_get. now rewrite Hx.
  - intros entries -> Hx. destruct (truthy (PDict entries)); [|reflexivity].
    unfold lift, dict_get. now rewrite Hx.
  - intros ->. reflexivity.
  - intros -> Hnot. destruct v; try reflexivity. now destruct (Hnot entries).
Qed.

(** X4: over an upstream whose answers depend on the request alone, asking
    twice in a row for the artists similar to the same artist gives the same
    result (value or exception). *)
Theorem get_similar_artists_idempotent artist_id access_token w :
  history_blind ->
  fst (get_similar_artists artist_id access_token
         (snd (get_similar_artists artist_id access_token w)))
  = fst (get_similar_artists artist_id access_token w).
Proof.
  intros Hb. symmetry.
  apply (blind_get_similar_artists artist_id access_token Hb).
  apply quiet_get_similar_artists.
Qed.

(** ** More on [get_hidden_gems] *)

Lemma gems_collect (tracks : list pyval) :
  forallb has_int_popularity tracks = true ->
  gems tracks = collect gem_of (filter (fun t => popularity_of t < 50) tracks).
Proof.
  induction tracks as [|t rest IH]; [reflexivity|].
  simpl. intros H. apply andb_true_iff in H as [Ht Hrest].
  destruct t as [| | | | |e]; try discriminate. unfold has_int_popularity in Ht.
  destruct (assoc "popularity" e) as [[| |p| | |]|] eqn:Ep; try discriminate.
  assert (popularity_of (PDict e) = p) as Hp
    by (unfold popularity_of, field; now rewrite Ep).
  unfold getitem at 1. rewrite Ep. simpl. rewrite (IH Hrest).
  destruct (p <? 50) eqn:E.
  - rewrite filter_cons_True by lia. reflexivity.
  - rewrite filter_cons_False by lia. reflexivity.
Qed.

(** X5: [get_hidden_gems] reads the name, artists, preview URL and album of
    the tracks below popularity 50 only.  A track at 50 or above is dropped
    whatever else it holds or lacks, so the outcome of the call is that of
    building the entries of the low-popularity tracks alone. *)
Theorem get_hidden_gems_reads_hidden_tracks_only
  genre access_token max_results w r payload tracks :
  upstream (trace w) (recommendations_request genre access_token) = Answered r ->
  is_http_error (status_code r) = false ->
  json_body r = Some (PDict payload) ->
  assoc "tracks" payload = Some (PList tracks) ->
  forallb has_int_popularity tracks = true ->
  get_hidden_gems genre access_token max_results w =
    (match collect gem_of (filter (fun t => popularity_of t < 50) tracks) with
     | Ok out => Ok (PList (slice_to out max_results))
     | Raise e => Raise e
     end,
     sent (recommendations_request genre access_token) w).
Proof.
  intros Hup Hst Hjson Htracks Hpop. unfold get_hidden_gems.
  rewrite (bind_ok _ _ _ _ _ (api_request_ok _ _ _ _ _ _ Hup Hst Hjson)).
  rewrite (assoc_truthy _ _ _ Htracks). simpl.
  unfold mbind, M_bind, lift, getitem. rewrite Htracks. simpl.
  rewrite (gems_collect _ Hpop).
  now destruct (collect gem_of (filter (fun t => popularity_of t < 50) tracks)).
Qed.

(** X6: the answers [get_hidden_gems] does not read tracks from.  A 4xx or
    5xx answer gives the empty list after one printed line; an empty payload
    under any other status gives the empty list silently; and a non-empty
    object without a [tracks] key raises [KeyError]. *)
Theorem get_hidden_gems_without_tracks genre access_token max_results w r :
  upstream (trace w) (recommendations_request genre access_token) = Answered r ->
  (is_http_error (status_code r) = true ->
   exists msg,
     get_hidden_gems genre access_token max_results w =
       (Ok (PList []),
        printed ("Error during API request to " ++ recommendations_url genre
                 ++ ": " ++ msg)
          (sent (recommendations_request genre access_token) w))) /\
  (forall v,
     is_http_error (status_code r) = false -> json_body r = Some v ->
     truthy v = false ->
     get_hidden_gems genre access_token max_results w =
       (Ok (PList []), sent (recommendations_request genre access_token) w)) /\
  (forall payload,
     is_http_error (status_code r) = false ->
     json_body r = Some (PDict payload) ->
     payload <> [] -> assoc "tracks" payload = None ->
     get_hidden_gems genre access_token max_results w =
       (Raise (KeyError (PStr "tracks")),
        sent (recommendations_request genre access_token) w)).
Proof.
  intros Hup. unfold get_hidden_gems. repeat split.
  - intros Hst. destruct (api_request_error _ _ _ _ _ Hup Hst) as (msg & _ & Hreq).
    exists msg. now rewrite (bind_ok _ _ _ _ _ Hreq).
  - intros v Hst Hjson Hv.
    rewrite (bind_ok _ _ _ _ _ (api_request_ok _ _ _ _ _ _ Hup Hst Hjson)).
    now rewrite Hv.
  - intros payload Hst Hjson Hne Hnone.
    rewrite (bind_ok _ _ _ _ _ (api_request_ok _ _ _ _ _ _ Hup Hst Hjson)).
    destruct payload as [|entry rest]; [now destruct Hne|]. simpl truthy. simpl negb.
    cbv iota. unfold mbind, M_bind, lift, getitem. now rewrite Hnone.
Qed.

Lemma gems_shaped (tracks out : list pyval) :
  gems tracks = Ok out -> Forall gem_shaped out.
Proof.
  revert out. induction tracks as [|t rest IH]; intros out H.
  - inversion H. constructor.
  - simpl in H.
    apply result_bind_inv in H as (p & Hp & H).
    apply result_bind_inv in H as (b & Hb & H).
    destruct b; [|now apply IH].
    apply result_bind_inv in H as (g & Hg & H).
    apply result_bind_inv in H as (more & Hmore & H).
    inversion H. constructor; [|now apply IH].
    unfold gem_of in Hg.
    repeat (apply result_bind_inv in Hg as (? & ? & Hg)).
    inversion Hg. unfold gem_shaped. eauto 10.
Qed.

Lemma Forall_slice_to {A : Type} (P : A -> Prop) (l : list A) (n : Z) :
  Forall P l -> Forall P (slice_to l n).
Proof. intros H. unfold slice_to. destruct (0 <=? n); now apply Forall_firstn. Qed.

(** X7: whatever the upstream answers and whatever integer [max_results]
    is, each entry of a list [get_hidden_gems] returns is a dict with exactly
    the fields [name], [artist], [popularity], [preview_url] and [album],
    and its popularity compares below 50. *)
Theorem get_hidden_gems_entries genre access_token (max_results : Z) w v w' :
  get_hidden_gems genre access_token max_results w = (Ok v, w') ->
  exists out, v = PList out /\ Forall gem_shaped out /\ Forall below_50 out.
Proof.
  intros H. unfold get_hidden_gems in H.
  apply bind_inv in H as (data & w1 & _ & H).
  destruct (negb (truthy data)).
  - inversion H. exists []. repeat split; constructor.
  - apply bind_inv in H as (listed & w2 & _ & H).
    apply bind_inv in H as (candidates & w3 & _ & H).
    apply bind_inv in H as (tracks & w4 & Hgems & H).
    apply lift_inv in Hgems as [Hgems _].
    inversion H. exists (slice_to tracks max_results). repeat split.
    + apply Forall_slice_to. now apply gems_shaped with (tracks := candidates).
    + apply Forall_slice_to. now apply gems_below_50 with (tracks := candidates).
Qed.

(** X8: [max_results] is used as a Python slice bound.  On a well-formed
    answer, [0] gives the empty list, a bound at or above the number of
    qualifying tracks gives all of them, and a negative bound [-k] gives all
    but the last [k] qualifying tracks (none when there are at most [k]). *)
Theorem get_hidden_gems_slice_bounds
  genre access_token (max_results : Z) w r payload tracks :
  upstream (trace w) (recommendations_request genre access_token) = Answered r ->
  is_http_error (status_code r) = false ->
  json_body r = Some (PDict payload) ->
  assoc "tracks" payload = Some (PList tracks) ->
  forallb is_track tracks = true ->
  exists out,
    get_hidden_gems genre access_token max_results w =
      (Ok (PList out), sent (recommendations_request genre access_token) w) /\
    (max_results = 0 -> out = []) /\
    (Z.of_nat (length (filter (fun t => popularity_of t < 50) tracks)) <= max_results ->
     out = map summary (filter (fun t => popularity_of t < 50) tracks)) /\
    (max_results < 0 ->
     out = firstn (length (filter (fun t => popularity_of t < 50) tracks)
                   - Z.to_nat (- max_results))
             (map summary (filter (fun t => popularity_of t < 50) tracks))).
Proof.
  intros Hup Hst Hjson Htracks Hwf.
  eexists. split.
  - exact (get_hidden_gems_answered _ _ max_results _ _ _ _ Hup Hst Hjson Htracks Hwf).
  - unfold slice_to. repeat split.
    + intros ->. reflexivity.
    + intros Hlen.
      assert ((0 <=? max_results) = true) as -> by lia.
      apply firstn_all2. rewrite length_map. lia.
    + intros Hneg.
      assert ((0 <=? max_results) = false) as -> by lia.
      now rewrite length_map.
Qed.

(** ** More on [recommend_music] *)

Lemma track_entry_recommendation (g e : pyval) :
  below_50 g -> track_entry g = Ok e -> recommendation e.
Proof.
  intros (p & Hp & Hlt) H. unfold track_entry in H.
  repeat (apply result_bind_inv in H as (? & ? & H)).
  inversion H. right. split; [reflexivity|].
  exists p. split; [|exact Hlt]. simpl. congruence.
Qed.

Lemma collect_track_entry_recommendations (found entries : list pyval) :
  Forall below_50 found -> collect track_entry found = Ok entries ->
  Forall recommendation entries.
Proof.
  intros Hfound. revert entries.
  induction Hfound as [|g rest Hg _ IH]; intros entries H.
  - inversion H. constructor.
  - simpl in H. apply result_bind_inv in H as (e & He & H).
    apply result_bind_inv in H as (es & Hes & H). inversion H.
    constructor; [now apply track_entry_recommendation with (g := g) | now apply IH].
Qed.

Lemma similar_step_recommendations access_token acc artist w out w' :
  similar_step access_token acc artist w = (Ok out, w') ->
  Forall recommendation acc -> Forall recommendation out.
Proof.
  unfold similar_step. intros H Hacc.
  apply bind_inv in H as (artist_id & w1 & _ & H).
  apply bind_inv in H as (similar & w2 & _ & H).
  apply bind_inv in H as (found & w3 & _ & H).
  apply bind_inv in H as (entries & w4 & Hentries & H).
  apply lift_inv in Hentries as [Hentries _].
  inversion H. apply Forall_app_2; [exact Hacc|].
  eapply Forall_impl; [now apply collect_artist_entry_tagged with (found := found)|].
  intros e He. now left.
Qed.

Lemma gems_step_recommendations access_token acc genre w out w' :
  gems_step access_token acc genre w = (Ok out, w') ->
  Forall recommendation acc -> Forall recommendation out.
Proof.
  unfold gems_step. intros H Hacc.
  apply bind_inv in H as (hidden & w1 & Hget & H).
  apply bind_inv in H as (found & w2 & Hiter & H).
  apply lift_inv in Hiter as [Hiter _].
  apply bind_inv in H as (entries & w3 & Hentries & H).
  apply lift_inv in Hentries as [Hentries _].
  inversion H. apply Forall_app_2; [exact Hacc|].
  apply collect_track_entry_recommendations with (found := found); [|exact Hentries].
  unfold get_hidden_gems in Hget.
  apply bind_inv in Hget as (data & w4 & _ & Hget).
  destruct (negb (truthy data)).
  - inversion Hget; subst. inversion Hiter. constructor.
  - apply bind_inv in Hget as (listed & w5 & _ & Hget).
    apply bind_inv in Hget as (candidates & w6 & _ & Hget).
    apply bind_inv in Hget as (tracks & w7 & Hgems & Hget).
    apply lift_inv in Hgems as [Hgems _].
    inversion Hget; subst. inversion Hiter; subst.
    apply Forall_slice_to. now apply gems_below_50 with (tracks := candidates).
Qed.

(** X9: every entry of a list [recommend_music] returns is tagged [Artist]
    or [Track], and the entries tagged [Track] have a popularity below 50;
    the entries tagged [Artist] are not filtered by popularity. *)
Theorem recommend_music_entries user_data access_token w v w' :
  recommend_music user_data access_token w = (Ok v, w') ->
  exists out, v = PList out /\ Forall recommendation out.
Proof.
  unfold recommend_music. intros H.
  apply bind_inv in H as (top_artists & w1 & _ & H).
  apply bind_inv in H as (artists & w2 & _ & H).
  apply bind_inv in H as (similar & w3 & Hloop & H).
  apply bind_inv in H as (has_genres & w4 & _ & H).
  apply bind_inv in H as (candidates & w5 & Hgenres & H).
  apply bind_inv in H as (shuffled & w6 & Hshuffle & H).
  inversion H. exists (slice_to shuffled 10). split; [reflexivity|].
  apply Forall_slice_to.
  destruct (random_shuffle_permutes candidates w5) as (y & w7 & Hy & Hperm & _).
  rewrite Hy in Hshuffle. inversion Hshuffle; subst y. rewrite Hperm.
  assert (Forall recommendation similar) as Hsimilar.
  { eapply (for_in_invariant (Forall recommendation)); [|exact Hloop|constructor].
    intros s x wa s' wb Hstep Hs. eapply similar_step_recommendations; eauto. }
  destruct has_genres.
  - apply bind_inv in Hgenres as (listed & w8 & _ & Hgenres).
    apply bind_inv in Hgenres as (genres & w9 & _ & Hgenres).
    eapply (for_in_invariant (Forall recommendation)); [|exact Hgenres|exact Hsimilar].
    intros s x wa s' wb Hstep Hs. eapply gems_step_recommendations; eauto.
  - inversion Hgenres. now subst.
Qed.

(** X10: the inputs [recommend_music] rejects before it asks anything
    upstream.  User data that is not a dict raises [AttributeError]; a
    [top_artists] value that cannot be iterated ([None], a number) raises
    [TypeError]; and a first top artist without an [id] raises [KeyError].
    In each case the world is left as it was. *)
Theorem recommend_music_rejects user_data access_token w :
  ((forall entries, user_data <> PDict entries) ->
   recommend_music user_data access_token w = (Raise AttributeError, w)) /\
  (forall entries top_artists,
     user_data = PDict entries ->
     assoc "top_artists" entries = Some top_artists ->
     py_iter top_artists = Raise TypeError ->
     recommend_music user_data access_token w = (Raise TypeError, w)) /\
  (forall entries artist rest,
     user_data = PDict entries ->
     assoc "top_artists" entries = Some (PList (PDict artist :: rest)) ->
     assoc "id" artist = None ->
     recommend_music user_data access_token w = (Raise (KeyError (PStr "id")), w)).
Proof.
  unfold recommend_music. repeat split.
  - intros Hnot. destruct user_data; try reflexivity. now destruct (Hnot entries).
  - intros entries top_artists -> Htop Hiter.
    unfold mbind, M_bind, lift, dict_get. now rewrite Htop, Hiter.
  - intros entries artist rest -> Htop Hid.
    unfold mbind at 1, M_bind at 1, lift at 1, dict_get. rewrite Htop.
    unfold mbind at 1, M_bind at 1, lift at 1, py_iter.
    unfold mbind at 1, M_bind at 1. simpl for_in.
    unfold mbind at 1, M_bind at 1, similar_step.
    unfold mbind at 1, M_bind at 1, lift at 1, getitem. now rewrite Hid.
Qed.

(** X11: with no top artists and no genres to go through (each key missing
    or holding an empty list), [recommend_music] returns the empty list
    without sending a request, printing a line or drawing a random number. *)
Theorem recommend_music_nothing_to_ask entries access_token w :
  py_iter (default (PList []) (assoc "top_artists" entries)) = Ok [] ->
  (assoc "genres" entries = None \/
   exists genres, assoc "genres" entries = Some genres /\ py_iter genres = Ok []) ->
  recommend_music (PDict entries) access_token w = (Ok (PList []), w).
Proof.
  intros Htop Hgenres. unfold recommend_music, dict_get, dict_contains.
  unfold mbind at 1, M_bind at 1, lift at 1.
  assert (match assoc "top_artists" entries with
          | Some x => x
          | None => PList []
          end = default (PList []) (assoc "top_artists" entries)) as ->
    by now destruct (assoc "top_artists" entries).
  unfold mbind at 1, M_bind at 1, lift at 1. rewrite Htop.
  unfold mbind at 1, M_bind at 1. simpl for_in. unfold mret at 1, M_ret at 1.
  unfold mbind at 1, M_bind at 1, lift at 1.
  destruct Hgenres as [Hnone | (genres & Hsome & Hiter)].
  - rewrite Hnone. reflexivity.
  - rewrite Hsome. rewrite bool_decide_eq_true_2 by eauto.
    unfold mbind, M_bind, lift, getitem. rewrite Hsome, Hiter. reflexivity.
Qed.

Lemma api_request_failing url headers params w :
  failing ->
  exists msg,
    api_request url headers params w =
      (Ok PNone,
       printed ("Error during API request to " ++ url ++ ": " ++ msg)
         (sent (get_request url headers params) w)).
Proof.
  intros Hf. destruct (Hf (trace w) (get_request url headers params)) as (r & Hup & Hst).
  destruct (api_request_error _ _ _ _ _ Hup Hst) as (msg & _ & H). now exists msg.
Qed.

(** A loop whose rounds each hand back the loop variables unchanged after
    one request and one printed line. *)
Lemma for_in_one_request_each {S X : Type} (P : X -> Prop) (body : S -> X -> M S)
  (s : S) :
  (forall x w, P x ->
     exists w', body s x w = (Ok s, w') /\
                length (trace w') = Datatypes.S (length (trace w)) /\
                length (stdout w') = Datatypes.S (length (stdout w))) ->
  forall xs w, Forall P xs ->
    exists w', for_in xs body s w = (Ok s, w') /\
               length (trace w') = (length (trace w) + length xs)%nat /\
               length (stdout w') = (length (stdout w) + length xs)%nat.
Proof.
  intros Hbody xs. induction xs as [|x rest IH]; intros w Hxs.
  - exists w. simpl. repeat split; lia.
  - inversion Hxs as [|? ? Hx Hrest]; subst. simpl.
    destruct (Hbody x w Hx) as (w1 & Hrun & Ht1 & Ho1).
    destruct (IH w1 Hrest) as (w2 & Hrun2 & Ht2 & Ho2).
    exists w2. rewrite (bind_ok _ _ _ _ _ Hrun). repeat split; [exact Hrun2 | lia | lia].
Qed.

Lemma similar_step_failing access_token acc artist w :
  failing -> has_id artist = true ->
  exists w', similar_step access_token acc artist w = (Ok acc, w') /\
             length (trace w') = S (length (trace w)) /\
             length (stdout w') = S (length (stdout w)).
Proof.
  intros Hf Hid. destruct artist as [| | | | |e]; try discriminate.
  apply bool_decide_eq_true in Hid as [artist_id Hid].
  destruct (api_request_failing (related_artists_url artist_id) (bearer access_token)
              PNone w Hf) as (msg & Hreq).
  eexists. split.
  - unfold similar_step. unfold mbind at 1, M_bind at 1, lift at 1, getitem.
    rewrite Hid. unfold get_similar_artists.
    rewrite bind_assoc, (bind_ok _ _ _ _ _ Hreq).
    unfold mbind, M_bind, lift, mret, M_ret. simpl. now rewrite app_nil_r.
  - simpl. rewrite !length_app. simpl. lia.
Qed.

Lemma gems_step_failing access_token acc genre w :
  failing ->
  exists w', gems_step access_token acc genre w = (Ok acc, w') /\
             length (trace w') = S (length (trace w)) /\
             length (stdout w') = S (length (stdout w)).
Proof.
  intros Hf.
  destruct (api_request_failing (recommendations_url genre) (bearer access_token)
              PNone w Hf) as (msg & Hreq).
  eexists. split.
  - unfold gems_step, get_hidden_gems.
    rewrite bind_assoc, (bind_ok _ _ _ _ _ Hreq).
    unfold mbind, M_bind, lift, mret, M_ret. simpl. now rewrite app_nil_r.
  - simpl. rewrite !length_app. simpl. lia.
Qed.

(** X12: during an outage, when every request is answered with a 4xx or 5xx
    status, [recommend_music] on well-formed user data still returns, with
    the empty list, after one request and one printed line for each top
    artist and each genre. *)
Theorem recommend_music_during_outage entries access_token w :
  failing -> user_data_ok entries = true ->
  exists w',
    recommend_music (PDict entries) access_token w = (Ok (PList []), w') /\
    length (trace w')
      = (length (trace w) + length (listed_under "top_artists" entries)
         + length (listed_under "genres" entries))%nat /\
    length (stdout w')
      = (length (stdout w) + length (listed_under "top_artists" entries)
         + length (listed_under "genres" entries))%nat.
Proof.
  intros Hf Hud. apply andb_true_iff in Hud as [Htop Hgen].
  assert (py_iter (match assoc "top_artists" entries with
                   | Some x => x
                   | None => PList []
                   end) = Ok (listed_under "top_artists" entries) /\
          Forall (fun a => has_id a = true) (listed_under "top_artists" entries))
    as [Hiter Hids].
  { unfold listed_under.
    destruct (assoc "top_artists" entries) as [[| | | |l|]|]; try discriminate.
    - split; [reflexivity|]. apply Forall_forall. intros a Ha.
      rewrite forallb_forall in Htop. apply Htop. now apply list_elem_of_In.
    - split; [reflexivity | constructor]. }
  destruct (for_in_one_request_each (fun a => has_id a = true)
              (similar_step access_token) [])
    with (xs := listed_under "top_artists" entries) (w := w)
    as (w1 & Hloop & Ht1 & Ho1);
    [intros; now apply similar_step_failing | exact Hids |].
  assert (exists w2,
            (has_genres ← lift (dict_contains "genres" (PDict entries));
             if (has_genres : bool) then
               listed ← lift (getitem (PDict entries) (PStr "genres"));
               genres ← lift (py_iter listed);
               for_in genres (gems_step access_token) []
             else mret []) w1 = (Ok [], w2) /\
            length (trace w2)
              = (length (trace w1) + length (listed_under "genres" entries))%nat /\
            length (stdout w2)
              = (length (stdout w1) + length (listed_under "genres" entries))%nat)
    as (w2 & Hgenres & Ht2 & Ho2).
  { unfold mbind at 1, M_bind at 1, lift at 1, dict_contains, listed_under.
    destruct (assoc "genres" entries) as [[| | | |genres|]|] eqn:Hg;
      try discriminate.
    - rewrite bool_decide_eq_true_2 by eauto.
      unfold mbind at 1, M_bind at 1, lift at 1, getitem. rewrite Hg.
      unfold mbind at 1, M_bind at 1, lift at 1, py_iter.
      apply (for_in_one_request_each (fun _ => True)); [|apply Forall_true; auto].
      intros; now apply gems_step_failing.
    - rewrite bool_decide_eq_false_2 by (intros [? ?]; discriminate).
      exists w1. simpl. repeat split; lia. }
  exists w2. split; [|lia].
  unfold recommend_music, dict_get.
  unfold mbind at 1, M_bind at 1, lift at 1.
  unfold mbind at 1, M_bind at 1, lift at 1. rewrite Hiter.
  rewrite (bind_ok _ _ _ _ _ Hloop), <- bind_assoc.
  rewrite (bind_ok _ _ _ _ _ Hgenres). reflexivity.
Qed.

(** ** More on the [/recommend] route *)

Lemma get_similar_artists_world artist_id access_token w :
  snd (get_similar_artists artist_id access_token w)
  = snd (api_request (related_artists_url artist_id) (bearer access_token) PNone w).
Proof.
  unfold get_similar_artists, mbind, M_bind.
  destruct (api_request (related_artists_url artist_id) (bearer access_token) PNone w)
    as [[data|e] w1]; [|reflexivity].
  now destruct (truthy data).
Qed.

Lemma similar_rounds_trace user_data access_token items rounds :
  getitem user_data (PStr "top_artists") = Ok items ->
  forall start acc w similar_artists w',
    for_in (seq start rounds)
      (fun similar_artists (_ : nat) =>
         top_artists ← lift (getitem user_data (PStr "top_artists"));
         similar_artist ← get_similar_artists top_artists access_token;
         mret (similar_artists ++ [similar_artist])%list)
      acc w = (Ok similar_artists, w') ->
    trace w' = (trace w
                ++ replicate rounds (related_artists_request items access_token))%list /\
    length similar_artists = (length acc + rounds)%nat.
Proof.
  intros Hitems. induction rounds as [|rounds IH]; intros start acc w sa w' H.
  - inversion H. simpl. rewrite app_nil_r. split; [reflexivity | lia].
  - simpl in H. apply bind_inv in H as (acc1 & w1 & Hround & H).
    apply bind_inv in Hround as (top & w0 & Htop & Hround).
    apply lift_inv in Htop as [Htop ->]. rewrite Hitems in Htop. inversion Htop; subst top.
    apply bind_inv in Hround as (similar & w2 & Hget & Hround).
    inversion Hround; subst acc1 w2.
    destruct (IH _ _ _ _ _ H) as [Htrace Hlen].
    pose proof (get_similar_artists_world items access_token w) as Hworld.
    rewrite Hget in Hworld. simpl in Hworld.
    destruct (api_request_frame (related_artists_url items) (bearer access_token)
                PNone w) as (Ht1 & _ & _).
    rewrite <- Hworld in Ht1. split.
    + rewrite Htrace, Ht1. rewrite <- app_assoc. reflexivity.
    + rewrite Hlen, length_app. simpl. lia.
Qed.

(** X13: when the loop of [/recommend] runs to its end, it has sent one
    request per round, all of them the same request for the artists related
    to the whole [top_artists] list written out in the URL, has collected one
    result per round, and has left the session and the random stream alone. *)
Theorem similar_loop_requests user_data access_token rounds w items similar_artists w' :
  getitem user_data (PStr "top_artists") = Ok items ->
  similar_loop user_data access_token rounds w = (Ok similar_artists, w') ->
  trace w' = (trace w
              ++ replicate rounds (related_artists_request items access_token))%list /\
  length similar_artists = rounds /\
  session w' = session w /\ draws w' = draws w.
Proof.
  intros Hitems Hloop.
  destruct (similar_rounds_trace user_data access_token items rounds Hitems
              0%nat [] w similar_artists w' Hloop) as [Htrace Hlen].
  pose proof (quiet_similar_loop user_data access_token rounds w) as [Hs Hd].
  rewrite Hloop in Hs, Hd. simpl in Hs, Hd. repeat split; auto.
Qed.

Lemma recommend_with_token w access_token :
  session w !! "access_token" = Some access_token ->
  truthy access_token = true ->
  recommend w =
    (user_data ← api_request me_url (bearer access_token) PNone;
     if negb (truthy user_data) then mret (Body "Error fetching user profile.") else
     top_artists_data ← api_request top_artists_url (bearer access_token) PNone;
     if negb (truthy top_artists_data) then mret (Body "Error fetching top artists.") else
     items ← lift (getitem top_artists_data (PStr "items"));
     user_data ← lift (setitem user_data "top_artists" items);
     rounds ← lift (py_len user_data);
     similar_artists ← similar_loop user_data access_token rounds;
     recommended_tracks ← recommend_music user_data access_token;
     mret (Rendered "recommendations.html" [("tracks", recommended_tracks)])) w.
Proof.
  intros Hs Ht. unfold recommend at 1, session_get. unfold mbind at 1, M_bind at 1.
  rewrite Hs. simpl. now rewrite Ht.
Qed.

(** X14: how [/recommend] ends when its two fetches do not deliver.  A falsy
    profile or top-artists result ends the request with the plain-text error
    of its stage; a top-artists payload from which [items] cannot be read
    raises (a [KeyError] when the key is missing); and a profile payload that
    is not an object raises [TypeError] when [top_artists] is stored in it.
    In each case nothing is sent after the failing fetch. *)
Theorem recommend_fetch_failures w access_token :
  session w !! "access_token" = Some access_token ->
  truthy access_token = true ->
  (forall user_data w1,
     api_request me_url (bearer access_token) PNone w = (Ok user_data, w1) ->
     truthy user_data = false ->
     recommend w = (Ok (Body "Error fetching user profile."), w1)) /\
  (forall user_data top_artists w1 w2,
     api_request me_url (bearer access_token) PNone w = (Ok user_data, w1) ->
     truthy user_data = true ->
     api_request top_artists_url (bearer access_token) PNone w1
       = (Ok top_artists, w2) ->
     (truthy top_artists = false ->
      recommend w = (Ok (Body "Error fetching top artists."), w2)) /\
     (forall e,
        truthy top_artists = true ->
        getitem top_artists (PStr "items") = Raise e ->
        recommend w = (Raise e, w2)) /\
     (forall items,
        truthy top_artists = true ->
        getitem top_artists (PStr "items") = Ok items ->
        (forall entries, user_data <> PDict entries) ->
        recommend w = (Raise TypeError, w2))).
Proof.
  intros Hs Ht. rewrite (recommend_with_token w access_token Hs Ht). split.
  - intros u w1 H1 Hu. now rewrite (bind_ok _ _ _ _ _ H1), Hu.
  - intros u a w1 w2 H1 Hu H2.
    rewrite (bind_ok _ _ _ _ _ H1), Hu. simpl.
    rewrite (bind_ok _ _ _ _ _ H2). repeat split.
    + intros Ha. now rewrite Ha.
    + intros e Ha He. rewrite Ha. simpl. unfold mbind, M_bind, lift. now rewrite He.
    + intros items Ha Hitems Hnot. rewrite Ha. simpl.
      unfold mbind at 1, M_bind at 1, lift at 1. rewrite Hitems.
      unfold mbind at 1, M_bind at 1, lift at 1.
      destruct u; try reflexivity. now destruct (Hnot entries).
Qed.

(** X15: whatever [/recommend] returns is a redirect to [/login], one of its
    two error texts, or the recommendations page with the single variable
    [tracks] holding a list of at most ten entries. *)
Theorem recommend_views w view w' :
  recommend w = (Ok view, w') ->
  view = Redirect "/login" \/
  view = Body "Error fetching user profile." \/
  view = Body "Error fetching top artists." \/
  exists out,
    view = Rendered "recommendations.html" [("tracks", PList out)] /\
    (length out <= 10)%nat.
Proof.
  intros H. unfold recommend in H.
  apply bind_inv in H as (tok & w0 & _ & H).
  destruct (negb (truthy tok)).
  { apply bind_inv in H as (target & w1 & Htarget & H).
    apply lift_inv in Htarget as [Htarget _]. inversion Htarget; subst.
    inversion H. now left. }
  apply bind_inv in H as (profile_data & w1 & _ & H).
  destruct (negb (truthy profile_data)); [inversion H; auto|].
  apply bind_inv in H as (top_artists_data & w2 & _ & H).
  destruct (negb (truthy top_artists_data)); [inversion H; auto|].
  apply bind_inv in H as (items & w3 & _ & H).
  apply bind_inv in H as (user_data & w4 & _ & H).
  apply bind_inv in H as (rounds & w5 & _ & H).
  apply bind_inv in H as (similar_artists & w6 & _ & H).
  apply bind_inv in H as (tracks & w7 & Hmusic & H).
  destruct (recommend_music_bounded _ _ _ _ _ Hmusic) as (out & -> & Hlen).
  inversion H. right. right. right. now exists out.
Qed.

(** ** More on the OAuth flow *)

(** X16: [callback] sends exactly one request, the POST to the token
    endpoint (with [code] set to [None] when the query has none), and writes
    the session all or nothing: either the session is left as it was and the
    result is no redirect, or both [access_token] and [refresh_token] are
    written and the result is the redirect to [/profile]. *)
Theorem callback_all_or_nothing args w :
  trace (snd (callback args w)) = (trace w ++ [token_request args])%list /\
  stdout (snd (callback args w)) = stdout w /\
  draws (snd (callback args w)) = draws w /\
  ((session (snd (callback args w)) = session w /\
    forall location, fst (callback args w) <> Ok (Redirect location)) \/
   (fst (callback args w) = Ok (Redirect "/profile") /\
    exists access refresh,
      session (snd (callback args w))
        = <["refresh_token" := refresh]> (<["access_token" := access]> (session w)))).
Proof.
  unfold callback, requests_post, send, mbind, M_bind.
  fold (token_request args).
  destruct (upstream (trace w) (token_request args)) as [r|].
  - destruct (status_code r =? 200); simpl.
    + unfold lift, response_json.
      destruct (json_body r) as [[| | | | |token_info]|]; simpl;
        try (repeat split; left; split; [reflexivity | discriminate]).
      repeat split. right. split; [reflexivity|]. eauto.
    + repeat split. left. split; [reflexivity | discriminate].
  - simpl. repeat split. left. split; [reflexivity | discriminate].
Qed.

(** X17: [/logout] clears the session whatever it held, sends and prints
    nothing, and redirects to [/]; right after it, [/profile] and
    [/recommend] both redirect to [/login]. *)
Theorem logout_ends_the_session w :
  exists w',
    logout w = (Ok (Redirect "/"), w') /\
    session w' = ∅ /\ trace w' = trace w /\ stdout w' = stdout w /\
    draws w' = draws w /\
    profile w' = (Ok (Redirect "/login"), w') /\
    recommend w' = (Ok (Redirect "/login"), w').
Proof.
  eexists. split; [reflexivity|]. simpl.
  do 4 (split; [reflexivity|]).
  split; [now apply profile_without_token | now apply recommend_without_token].
Qed.

Lemma profile_first_request w access_token :
  session w !! "access_token" = Some access_token ->
  truthy access_token = true ->
  (forall location, fst (profile w) <> Ok (Redirect location)) /\
  exists rest,
    trace (snd (profile w))
    = (trace w ++ get_request me_url (bearer access_token) PNone :: rest)%list.
Proof.
  intros Hs Ht. rewrite (profile_with_token w access_token Hs Ht).
  unfold mbind, M_bind.
  destruct (api_request me_url (bearer access_token) PNone w) as [[u|e] w1] eqn:H1;
    pose proof (api_request_trace _ _ _ _ _ _ H1) as Ht1;
    [|split; [discriminate | now exists []]].
  destruct (negb (truthy u)); [split; [discriminate | now exists []]|].
  destruct (api_request top_artists_url (bearer access_token) PNone w1)
    as [[a|e] w2] eqn:H2;
    pose proof (api_request_trace _ _ _ _ _ _ H2) as Ht2;
    [|split; [discriminate|]; simpl; rewrite Ht2, Ht1, <- app_assoc; eauto].
  destruct (negb (truthy a));
    [split; [discriminate|]; simpl; rewrite Ht2, Ht1, <- app_assoc; eauto|].
  destruct (api_request top_tracks_url (bearer access_token) PNone w2)
    as [[t|e] w3] eqn:H3;
    pose proof (api_request_trace _ _ _ _ _ _ H3) as Ht3;
    [|split; [discriminate|]; simpl; rewrite Ht3, Ht2, Ht1, <- !app_assoc; eauto].
  destruct (negb (truthy t));
    (split; [discriminate|]; simpl; rewrite Ht3, Ht2, Ht1, <- !app_assoc; eauto).
Qed.

(** X18: the token a granted exchange stores is the token the next request
    presents.  After [callback] has stored a non-empty [access_token],
    [/profile] is not redirected, and the first request it sends is the
    profile fetch carrying [Authorization: Bearer] followed by that token. *)
Theorem stored_token_is_presented args w r token_info token :
  upstream (trace w) (token_request args) = Answered r ->
  status_code r = 200 ->
  json_body r = Some (PDict token_info) ->
  assoc "access_token" token_info = Some (PStr token) ->
  token <> "" ->
  exists w',
    callback args w = (Ok (Redirect "/profile"), w') /\
    (forall location, fst (profile w') <> Ok (Redirect location)) /\
    exists rest,
      trace (snd (profile w'))
      = (trace w'
         ++ get_request me_url [("Authorization", ("Bearer " ++ token)%string)] PNone
            :: rest)%list.
Proof.
  intros Hup Hst Hjson Htoken Hne. eexists. split.
  - exact (token_exchange_granted args w r token_info Hup Hst Hjson).
  - apply (profile_first_request _ (PStr token)).
    + simpl. rewrite lookup_insert_ne by discriminate.
      rewrite lookup_insert_eq. unfold field. now rewrite Htoken.
    + simpl. destruct (String.eqb_spec token ""); [contradiction | reflexivity].
Qed.

(** ** What the routes leave alone *)

Lemma keeps_session_quiet {A : Type} (m : M A) : quiet m -> keeps_session m.
Proof. intros H w. destruct (H w) as [Hs _]. now symmetry. Qed.

Lemma keeps_session_ret {A : Type} (a : A) : keeps_session (mret a : M A).
Proof. intros w. reflexivity. Qed.

Lemma keeps_session_lift {A : Type} (r : Result A) : keeps_session (lift r).
Proof. intros w. reflexivity. Qed.

Lemma keeps_session_bind {A B : Type} (m : M A) (f : A -> M B) :
  keeps_session m -> (forall a, keeps_session (f a)) -> keeps_session (m ≫= f).
Proof.
  intros Hm Hf w. unfold mbind, M_bind. specialize (Hm w).
  destruct (m w) as [[a|e] w1]; simpl in *; [|exact Hm].
  now rewrite Hf.
Qed.

Lemma keeps_session_for_in {S X : Type} (body : S -> X -> M S) (xs : list X) :
  (forall s x, keeps_session (body s x)) -> forall s, keeps_session (for_in xs body s).
Proof.
  intros Hbody. induction xs as [|x rest IH]; intros s; simpl.
  - apply keeps_session_ret.
  - apply keeps_session_bind; [apply Hbody | exact IH].
Qed.

Lemma keeps_session_random_shuffle (x : list pyval) : keeps_session (random_shuffle x).
Proof.
  intros w. destruct (random_shuffle_permutes x w) as (y & w' & Hrun & _ & _ & _ & Hs).
  now rewrite Hrun.
Qed.

Lemma quiet_get_hidden_gems genre access_token max_results :
  quiet (get_hidden_gems genre access_token max_results).
Proof.
  unfold get_hidden_gems. apply quiet_bind; [apply quiet_api_request|].
  intros data. destruct (negb (truthy data)); [apply quiet_ret|].
  repeat (apply quiet_bind; [apply quiet_lift|]; intros ?). apply quiet_ret.
Qed.

Lemma keeps_session_recommend_music user_data access_token :
  keeps_session (recommend_music user_data access_token).
Proof.
  unfold recommend_music.
  apply keeps_session_bind; [apply keeps_session_lift|]; intros top_artists.
  apply keeps_session_bind; [apply keeps_session_lift|]; intros artists.
  apply keeps_session_bind.
  { apply keeps_session_for_in. intros acc artist. unfold similar_step.
    apply keeps_session_bind; [apply keeps_session_lift|]; intros artist_id.
    apply keeps_session_bind;
      [apply keeps_session_quiet, quiet_get_similar_artists|]; intros similar.
    repeat (apply keeps_session_bind; [apply keeps_session_lift|]; intros ?).
    apply keeps_session_ret. }
  intros found.
  apply keeps_session_bind; [apply keeps_session_lift|]; intros has_genres.
  apply keeps_session_bind.
  { destruct has_genres; [|apply keeps_session_ret].
    apply keeps_session_bind; [apply keeps_session_lift|]; intros listed.
    apply keeps_session_bind; [apply keeps_session_lift|]; intros genres.
    apply keeps_session_for_in. intros acc genre. unfold gems_step.
    apply keeps_session_bind;
      [apply keeps_session_quiet, quiet_get_hidden_gems|]; intros hidden.
    repeat (apply keeps_session_bind; [apply keeps_session_lift|]; intros ?).
    apply keeps_session_ret. }
  intros candidates.
  apply keeps_session_bind; [apply keeps_session_random_shuffle|]; intros shuffled.
  apply keeps_session_ret.
Qed.

Lemma keeps_session_api_request url headers params :
  keeps_session (api_request url headers params).
Proof. apply keeps_session_quiet, quiet_api_request. Qed.

(** X19: only [callback] and [logout] write to the session.  Whatever the
    upstream does, and also when they raise, [/profile] and [/recommend]
    leave the session as it was, [/profile] draws no random number, and
    [/] and [/login] leave the whole world as it was. *)
Theorem reading_routes_keep_the_session w :
  session (snd (profile w)) = session w /\
  draws (snd (profile w)) = draws w /\
  session (snd (recommend w)) = session w /\
  snd (home w) = w /\
  snd (login w) = w.
Proof.
  assert (quiet profile) as Hprofile.
  { unfold profile. apply quiet_bind; [intros w0; apply agree_refl|].
    intros tok. destruct (negb (truthy tok)).
    { apply quiet_bind; [apply quiet_lift | intros; apply quiet_ret]. }
    apply quiet_bind; [apply quiet_api_request|]; intros u.
    destruct (negb (truthy u)); [apply quiet_ret|].
    apply quiet_bind; [apply quiet_api_request|]; intros a.
    destruct (negb (truthy a)); [apply quiet_ret|].
    apply quiet_bind; [apply quiet_api_request|]; intros t.
    destruct (negb (truthy t)); apply quiet_ret. }
  assert (keeps_session recommend) as Hrecommend.
  { unfold recommend. apply keeps_session_bind; [intros w0; reflexivity|].
    intros tok. destruct (negb (truthy tok)).
    { apply keeps_session_bind;
        [apply keeps_session_lift | intros; apply keeps_session_ret]. }
    apply keeps_session_bind; [apply keeps_session_api_request|]; intros u.
    destruct (negb (truthy u)); [apply keeps_session_ret|].
    apply keeps_session_bind; [apply keeps_session_api_request|]; intros a.
    destruct (negb (truthy a)); [apply keeps_session_ret|].
    do 3 (apply keeps_session_bind; [apply keeps_session_lift|]; intros ?).
    apply keeps_session_bind;
      [apply keeps_session_quiet, quiet_similar_loop|]; intros similar.
    apply keeps_session_bind; [apply keeps_session_recommend_music|]; intros tracks.
    apply keeps_session_ret. }
  destruct (Hprofile w) as [Hs Hd].
  repeat split; auto.
Qed.

(** ** [/recommend] when the upstream delivers *)

Lemma assoc_set_same {V : Type} (k : string) (v : V) (l : list (string * V)) :
  assoc k (assoc_set k v l) = Some v.
Proof.
  induction l as [|[k' v'] rest IH]; simpl.
  - now rewrite String.eqb_refl.
  - destruct (String.eqb k k') eqn:E; simpl; [now rewrite String.eqb_refl|].
    now rewrite E.
Qed.

Lemma similar_loop_obliged user_data access_token rounds items w :
  obliging ->
  getitem user_data (PStr "top_artists") = Ok items ->
  exists similar_artists w',
    similar_loop user_data access_token rounds w = (Ok similar_artists, w').
Proof.
  intros [Hrel _] Hitems. unfold similar_loop.
  apply (for_in_returns (fun _ : nat => True)); [|apply Forall_true; auto].
  intros acc i w0 _.
  destruct (get_similar_artists_obliged items access_token w0 (Hrel _ _ _))
    as (artists & w1 & Hget & _).
  exists (acc ++ [PList artists])%list, w1.
  unfold mbind at 1, M_bind at 1, lift at 1. rewrite Hitems.
  now rewrite (bind_ok _ _ _ _ _ Hget).
Qed.

(** X20: [/recommend] renders when the upstream delivers.  With a token in
    the session, a non-empty profile object, a top-artists object whose
    [items] is a list of artists with ids, and related-artists and
    recommendations endpoints that keep to their contract, the route returns
    the recommendations page with a list of at most ten tracks. *)
Theorem recommend_renders w access_token r1 r2 profile_data top_artists items :
  session w !! "access_token" = Some access_token ->
  truthy access_token = true ->
  upstream (trace w) (get_request me_url (bearer access_token) PNone) = Answered r1 ->
  is_http_error (status_code r1) = false ->
  json_body r1 = Some (PDict profile_data) ->
  profile_data <> [] ->
  upstream (trace w ++ [get_request me_url (bearer access_token) PNone])%list
    (get_request top_artists_url (bearer access_token) PNone) = Answered r2 ->
  is_http_error (status_code r2) = false ->
  json_body r2 = Some (PDict top_artists) ->
  assoc "items" top_artists = Some (PList items) ->
  user_data_ok (assoc_set "top_artists" (PList items) profile_data) = true ->
  obliging ->
  exists out w',
    recommend w
      = (Ok (Rendered "recommendations.html" [("tracks", PList out)]), w') /\
    (length out <= 10)%nat.
Proof.
  intros Hs Ht Hup1 Hst1 Hjson1 Hne Hup2 Hst2 Hjson2 Hitems Hud Hob.
  rewrite (recommend_with_token w access_token Hs Ht).
  rewrite (bind_ok _ _ _ _ _ (api_request_ok _ _ _ _ _ _ Hup1 Hst1 Hjson1)).
  assert (truthy (PDict profile_data) = true) as ->
    by (destruct profile_data; [contradiction | reflexivity]).
  cbn [negb].
  assert (api_request top_artists_url (bearer access_token) PNone
            (sent (get_request me_url (bearer access_token) PNone) w)
          = (Ok (PDict top_artists),
             sent (get_request top_artists_url (bearer access_token) PNone)
               (sent (get_request me_url (bearer access_token) PNone) w))) as Hreq2
    by (apply api_request_ok with (r := r2); assumption).
  rewrite (bind_ok _ _ _ _ _ Hreq2), (assoc_truthy _ _ _ Hitems).
  cbn [negb].
  unfold mbind at 1, M_bind at 1, lift at 1, getitem. rewrite Hitems.
  unfold mbind at 1, M_bind at 1, lift at 1, setitem.
  unfold mbind at 1, M_bind at 1, lift at 1, py_len.
  destruct (similar_loop_obliged
              (PDict (assoc_set "top_artists" (PList items) profile_data))
              access_token
              (length (assoc_set "top_artists" (PList items) profile_data))
              (PList items)
              (sent (get_request top_artists_url (bearer access_token) PNone)
                 (sent (get_request me_url (bearer access_token) PNone) w)) Hob)
    as (similar_artists & w3 & Hloop).
  { unfold getitem. now rewrite assoc_set_same. }
  rewrite (bind_ok _ _ _ _ _ Hloop).
  destruct (recommend_music_returns _ access_token w3 Hob Hud) as (out & w4 & Hmusic).
  rewrite (bind_ok _ _ _ _ _ Hmusic).
  exists out, w4. split; [reflexivity|].
  destruct (recommend_music_bounded _ _ _ _ _ Hmusic) as (out' & Heq & Hlen).
  now inversion Heq.
Qed.

End App.

(** ** The theorems at work on the fixtures *)

(** The fixture of the specification: [getHiddenGems("indie", token)]. *)
Lemma get_hidden_gems_spec_witness :
  get_hidden_gems (always (ok_json fixture_recommendations)) plain_repr
    (PStr "indie") (PStr "token") default_max_results fresh
  = (Ok (PList fixture_gems),
     sent (recommendations_request plain_repr (PStr "indie") (PStr "token")) fresh).
Proof.
  exact (proj1
           (proj2 (proj2 (get_hidden_gems_spec
                            (always (ok_json fixture_recommendations)) plain_repr
                            (PStr "indie") (PStr "token") 5 fresh))
              (ok_json fixture_recommendations) [("tracks", PList fixture_tracks)]
              (track_json "a" 10) (track_json "b" 60) (track_json "c" 20)
              (track_json "d" 70) (track_json "e" 30) (track_json "f" 80)
              (track_json "g" 40) (track_json "h" 90) (track_json "i" 49)
              (track_json "j" 51)
              eq_refl eq_refl eq_refl eq_refl eq_refl eq_refl)).
Defined.

(** A negative [max_results] is a Python slice from the end: it drops the
    last gems instead of keeping the first. *)
Example get_hidden_gems_negative_max_results :
  fst (get_hidden_gems (always (ok_json fixture_recommendations)) plain_repr
         (PStr "indie") (PStr "token") (-1) fresh)
  = Ok (PList [gem_json "a" 10; gem_json "c" 20; gem_json "e" 30; gem_json "g" 40]).
Proof. reflexivity. Qed.

(** [/logout] followed by [/profile] ends at [/login]. *)
Example logout_then_profile :
  exists w',
    logout logged_in = (Ok (Redirect "/"), w') /\
    profile offline plain_repr w' = (Ok (Redirect "/login"), w').
Proof. eexists. split; reflexivity. Qed.

(** A 404 answer is logged and comes back as [None]. *)
Lemma api_request_absent_on_http_error_witness :
  exists msg,
    api_request (always not_found) "https://api.spotify.com/v1/me" [] PNone fresh
    = (Ok PNone,
       printed ("Error during API request to https://api.spotify.com/v1/me: " ++ msg)
         (sent (get_request "https://api.spotify.com/v1/me" [] PNone) fresh)).
Proof.
  exact (proj1 (api_request_absent_on_http_error (always not_found)
                  "https://api.spotify.com/v1/me" [] PNone fresh)
           not_found eq_refl eq_refl).
Defined.

(** With the network down, [api_request] raises; with a 304 answer that has
    no body, it raises as well. *)
Lemma api_request_raises :
  api_request offline "https://api.spotify.com/v1/me" [] PNone fresh
  = (Raise ConnectionError,
     sent (get_request "https://api.spotify.com/v1/me" [] PNone) fresh) /\
  api_request (always (mkResponse 304 "Not Modified" "" "" None))
    "https://api.spotify.com/v1/me" [] PNone fresh
  = (Raise JSONDecodeError,
     sent (get_request "https://api.spotify.com/v1/me" [] PNone) fresh).
Proof. split; reflexivity. Qed.

Lemma get_similar_artists_tolerates_failure_witness :
  exists w',
    get_similar_artists (always not_found) plain_repr (PStr "id1") (PStr "token")
      fresh = (Ok (PList []), w').
Proof.
  exact (proj2 (get_similar_artists_tolerates_failure (always not_found) plain_repr
                  (PStr "id1") (PStr "token") fresh)
           not_found eq_refl eq_refl).
Defined.

(** A granted and a refused token exchange. *)
Lemma callback_token_exchange_witness :
  (exists w',
     callback (always tokens_granted) client secret redirect_uri [("code", "abc")]
       fresh
     = (Ok (Redirect "/profile"), w') /\
     session w' !! "access_token" = Some (PStr "A") /\
     session w' !! "refresh_token" = Some (PStr "R")) /\
  (exists w',
     callback (always invalid_grant) client secret redirect_uri [("code", "abc")]
       fresh
     = (Ok (Body "Error fetching access token: invalid_grant"), w') /\
     session w' = ∅).
Proof.
  split.
  - exact (proj1 (callback_token_exchange (always tokens_granted) client secret
                    redirect_uri [("code", "abc")] fresh tokens_granted eq_refl)
             eq_refl
             [("access_token", PStr "A"); ("refresh_token", PStr "R")] eq_refl).
  - destruct (proj2 (callback_token_exchange (always invalid_grant) client secret
                       redirect_uri [("code", "abc")] fresh invalid_grant eq_refl))
      as (w' & Hrun & _ & Hempty); [discriminate|].
    exists w'. split; [exact Hrun | exact (Hempty eq_refl)].
Defined.

(** An empty session, and a session holding [None]. *)
Lemma guarded_routes_redirect_to_login_witness :
  (profile offline plain_repr fresh = (Ok (Redirect "/login"), fresh) /\
   recommend offline die plain_repr fresh = (Ok (Redirect "/login"), fresh)) /\
  (let w := stored "access_token" PNone fresh in
   profile offline plain_repr w = (Ok (Redirect "/login"), w) /\
   recommend offline die plain_repr w = (Ok (Redirect "/login"), w)).
Proof.
  split.
  - destruct (guarded_routes_redirect_to_login offline die plain_repr fresh
                (or_introl eq_refl)) as (Hp & Hr & _).
    split; [exact Hp | exact Hr].
  - destruct (guarded_routes_redirect_to_login offline die plain_repr
                (stored "access_token" PNone fresh)
                (or_intror (ex_intro _ PNone (conj eq_refl eq_refl))))
      as (Hp & Hr & _).
    split; [exact Hp | exact Hr].
Defined.

(** A token answer without tokens. *)
Lemma callback_stores_none_for_missing_fields_witness :
  exists w',
    callback (always tokens_missing) client secret redirect_uri [("code", "abc")]
      fresh
    = (Ok (Redirect "/profile"), w') /\
    session w' !! "access_token" = Some PNone /\
    session w' !! "refresh_token" = Some PNone /\
    profile (always tokens_missing) plain_repr w' = (Ok (Redirect "/login"), w') /\
    recommend (always tokens_missing) die plain_repr w'
    = (Ok (Redirect "/login"), w').
Proof.
  destruct (callback_stores_none_for_missing_fields (always tokens_missing)
              die plain_repr client secret redirect_uri [("code", "abc")] fresh
              tokens_missing [("token_type", PStr "Bearer")]
              eq_refl eq_refl eq_refl)
    as (w' & Hrun & Haccess & Hrefresh).
  destruct (Haccess eq_refl) as (Hs & Hp & Hr).
  exists w'. repeat split; auto.
Defined.

(** The profile arrives, the top artists do not. *)
Lemma profile_all_or_nothing_witness :
  exists w',
    profile (scripted [Answered (ok_json (PDict [("id", PStr "u1")]));
                       Answered not_found])
      plain_repr logged_in
    = (Ok (Body "Error fetching top artists."), w').
Proof.
  eexists.
  eapply (proj1 (proj2 (profile_all_or_nothing
                          (scripted [Answered (ok_json (PDict [("id", PStr "u1")]));
                                     Answered not_found])
                          plain_repr logged_in (PStr "token") eq_refl eq_refl))).
  - reflexivity.
  - reflexivity.
  - reflexivity.
  - reflexivity.
Defined.

Lemma generous_api_obliging : obliging generous_api plain_repr.
Proof. split; intros; reflexivity. Qed.

(** Twenty candidates, ten returned. *)
Lemma recommend_music_at_most_ten_witness :
  exists out w',
    recommend_music generous_api die plain_repr (PDict keen_listener) (PStr "token")
      fresh = (Ok (PList out), w') /\
    (length out <= 10)%nat.
Proof.
  exact (proj2 (recommend_music_at_most_ten generous_api die plain_repr
                  (PDict keen_listener) (PStr "token") fresh)
           keen_listener eq_refl eq_refl generous_api_obliging).
Defined.

Example twenty_candidates_ten_returned :
  exists out w',
    recommend_music generous_api die plain_repr (PDict keen_listener) (PStr "token")
      fresh = (Ok (PList out), w') /\
    length out = 10%nat /\ draws w' = 19%nat.
Proof. eexists _, _. split; [vm_compute; reflexivity | split; reflexivity]. Qed.

(** One top artist, one related artist, no genres. *)
Lemma recommend_music_without_genres_witness :
  exists shuffled w',
    recommend_music small_api die plain_repr (PDict plain_listener) (PStr "token")
      fresh = (Ok (PList (firstn 10 shuffled)), w') /\
    shuffled ≡ₚ [artist_entry_json "x" 70] /\
    trace w' = [related_artists_request plain_repr (PStr "id1") (PStr "token")].
Proof.
  exact (proj1 (recommend_music_without_genres small_api die plain_repr
                  plain_listener (PStr "token") fresh eq_refl)
           [PDict [("id", PStr "id1")]] [artist_entry_json "x" 70]
           (sent (related_artists_request plain_repr (PStr "id1") (PStr "token"))
              fresh)
           eq_refl eq_refl).
Defined.

Lemma small_api_history_blind : history_blind small_api.
Proof. intros history history' rq. reflexivity. Qed.

(** The route and the route without its loop render the same list. *)
Lemma recommend_loop_is_unused_witness :
  exists w'',
    recommend_without_loop small_api die plain_repr logged_in
    = (Ok (Rendered "recommendations.html"
             [("tracks", PList [artist_entry_json "x" 70])]), w'').
Proof.
  eapply (proj2 (recommend_loop_is_unused small_api die plain_repr logged_in)
            small_api_history_blind).
  vm_compute. reflexivity.
Defined.

(** ** Further properties at work on the fixtures *)

(** A profile endpoint that answers 200 with [{}]. *)
Lemma profile_empty_payload_is_failure_witness :
  profile (always (ok_json (PDict []))) plain_repr logged_in
  = (Ok (Body "Error fetching user profile."),
     sent (get_request me_url (bearer plain_repr (PStr "token")) PNone) logged_in).
Proof.
  exact (profile_empty_payload_is_failure (always (ok_json (PDict []))) plain_repr
           logged_in (PStr "token") (ok_json (PDict [])) (PDict [])
           eq_refl eq_refl eq_refl eq_refl eq_refl eq_refl).
Defined.

(** An answer that lists one related artist. *)
Lemma get_similar_artists_answered_witness :
  get_similar_artists small_api plain_repr (PStr "id1") (PStr "token") fresh
  = (Ok (PList [artist_json "x" 70]),
     sent (related_artists_request plain_repr (PStr "id1") (PStr "token")) fresh).
Proof.
  exact (proj1 (get_similar_artists_answered small_api plain_repr (PStr "id1")
                  (PStr "token") fresh
                  (ok_json (PDict [("artists", PList [artist_json "x" 70])]))
                  (PDict [("artists", PList [artist_json "x" 70])])
                  eq_refl eq_refl eq_refl)
           [("artists", PList [artist_json "x" 70])] (PList [artist_json "x" 70])
           eq_refl eq_refl).
Defined.

Lemma get_similar_artists_idempotent_witness :
  fst (get_similar_artists small_api plain_repr (PStr "id1") (PStr "token")
         (snd (get_similar_artists small_api plain_repr (PStr "id1") (PStr "token")
                 fresh)))
  = fst (get_similar_artists small_api plain_repr (PStr "id1") (PStr "token") fresh).
Proof.
  exact (get_similar_artists_idempotent small_api plain_repr (PStr "id1")
           (PStr "token") fresh small_api_history_blind).
Defined.

(** A popular track without a name, artists or an album does no harm. *)
Lemma get_hidden_gems_reads_hidden_tracks_only_witness :
  get_hidden_gems
    (always (ok_json (PDict [("tracks", PList [PDict [("popularity", PInt 90)];
                                               track_json "a" 10])])))
    plain_repr (PStr "indie") (PStr "token") 5 fresh
  = (Ok (PList [gem_json "a" 10]),
     sent (recommendations_request plain_repr (PStr "indie") (PStr "token")) fresh).
Proof.
  exact (get_hidden_gems_reads_hidden_tracks_only
           (always (ok_json (PDict [("tracks",
                                     PList [PDict [("popularity", PInt 90)];
                                            track_json "a" 10])])))
           plain_repr (PStr "indie") (PStr "token") 5 fresh
           (ok_json (PDict [("tracks", PList [PDict [("popularity", PInt 90)];
                                              track_json "a" 10])]))
           [("tracks", PList [PDict [("popularity", PInt 90)]; track_json "a" 10])]
           [PDict [("popularity", PInt 90)]; track_json "a" 10]
           eq_refl eq_refl eq_refl eq_refl eq_refl).
Defined.

(** An object that lists artists where tracks are expected. *)
Lemma get_hidden_gems_without_tracks_witness :
  get_hidden_gems (always (ok_json (PDict [("artists", PList [])]))) plain_repr
    (PStr "indie") (PStr "token") 5 fresh
  = (Raise (KeyError (PStr "tracks")),
     sent (recommendations_request plain_repr (PStr "indie") (PStr "token")) fresh).
Proof.
  refine (proj2 (proj2 (get_hidden_gems_without_tracks
                          (always (ok_json (PDict [("artists", PList [])])))
                          plain_repr (PStr "indie") (PStr "token") 5 fresh
                          (ok_json (PDict [("artists", PList [])])) eq_refl))
            [("artists", PList [])] eq_refl eq_refl _ eq_refl).
  discriminate.
Defined.

Lemma get_hidden_gems_entries_witness :
  exists out,
    PList fixture_gems = PList out /\ Forall gem_shaped out /\ Forall below_50 out.
Proof.
  exact (get_hidden_gems_entries (always (ok_json fixture_recommendations))
           plain_repr (PStr "indie") (PStr "token") 5 fresh (PList fixture_gems)
           (sent (recommendations_request plain_repr (PStr "indie") (PStr "token"))
              fresh)
           eq_refl).
Defined.

(** The fixture cut at [-2]: the last two of its five gems are dropped. *)
Lemma get_hidden_gems_slice_bounds_witness :
  exists out,
    get_hidden_gems (always (ok_json fixture_recommendations)) plain_repr
      (PStr "indie") (PStr "token") (-2) fresh
    = (Ok (PList out),
       sent (recommendations_request plain_repr (PStr "indie") (PStr "token"))
         fresh) /\
    out = [gem_json "a" 10; gem_json "c" 20; gem_json "e" 30].
Proof.
  destruct (get_hidden_gems_slice_bounds (always (ok_json fixture_recommendations))
              plain_repr (PStr "indie") (PStr "token") (-2) fresh
              (ok_json fixture_recommendations) [("tracks", PList fixture_tracks)]
              fixture_tracks eq_refl eq_refl eq_refl eq_refl eq_refl)
    as (out & Hrun & _ & _ & Hneg).
  exists out. split; [exact Hrun|]. apply Hneg. reflexivity.
Defined.

(** One top artist, one related artist: the entry is a recommendation. *)
Lemma recommend_music_entries_witness :
  exists out,
    PList [artist_entry_json "x" 70] = PList out /\ Forall recommendation out.
Proof.
  exact (recommend_music_entries small_api die plain_repr (PDict plain_listener)
           (PStr "token") fresh (PList [artist_entry_json "x" 70])
           (sent (related_artists_request plain_repr (PStr "id1") (PStr "token"))
              fresh)
           eq_refl).
Defined.

(** A top artist without an [id]. *)
Lemma recommend_music_rejects_witness :
  recommend_music offline die plain_repr
    (PDict [("top_artists", PList [PDict [("name", PStr "x")]])]) (PStr "token") fresh
  = (Raise (KeyError (PStr "id")), fresh).
Proof.
  exact (proj2 (proj2 (recommend_music_rejects offline die plain_repr
                         (PDict [("top_artists", PList [PDict [("name", PStr "x")]])])
                         (PStr "token") fresh))
           [("top_artists", PList [PDict [("name", PStr "x")]])]
           [("name", PStr "x")] [] eq_refl eq_refl eq_refl).
Defined.

(** A profile with nothing to go by, even with the network down. *)
Lemma recommend_music_nothing_to_ask_witness :
  recommend_music offline die plain_repr
    (PDict [("id", PStr "u1"); ("genres", PList [])]) (PStr "token") fresh
  = (Ok (PList []), fresh).
Proof.
  exact (recommend_music_nothing_to_ask offline die plain_repr
           [("id", PStr "u1"); ("genres", PList [])] (PStr "token") fresh
           eq_refl
           (or_intror (ex_intro _ (PList []) (conj eq_refl eq_refl)))).
Defined.

Lemma always_not_found_failing : failing (always not_found).
Proof. intros history rq. exists not_found. now split. Qed.

(** Three top artists and one genre during an outage: four requests, four
    printed lines, no recommendation. *)
Lemma recommend_music_during_outage_witness :
  exists w',
    recommend_music (always not_found) die plain_repr (PDict keen_listener)
      (PStr "token") fresh = (Ok (PList []), w') /\
    length (trace w') = 4%nat /\ length (stdout w') = 4%nat.
Proof.
  exact (recommend_music_during_outage (always not_found) die plain_repr
           keen_listener (PStr "token") fresh always_not_found_failing eq_refl).
Defined.

(** Two rounds over user data with two keys. *)
Lemma similar_loop_requests_witness :
  exists similar_artists w',
    similar_loop small_api plain_repr (PDict plain_listener) (PStr "token") 2 fresh
    = (Ok similar_artists, w') /\
    trace w'
    = replicate 2
        (related_artists_request plain_repr (PList [PDict [("id", PStr "id1")]])
           (PStr "token")) /\
    length similar_artists = 2%nat.
Proof.
  eexists _, _. split; [reflexivity|].
  destruct (similar_loop_requests small_api plain_repr (PDict plain_listener)
              (PStr "token") 2 fresh (PList [PDict [("id", PStr "id1")]])
              _ _ eq_refl eq_refl) as (Htrace & Hlen & _).
  split; [exact Htrace | exact Hlen].
Defined.

(** The top-artists answer has no [items]. *)
Lemma recommend_fetch_failures_witness :
  exists w',
    recommend (always (ok_json (PDict [("id", PStr "u1")]))) die plain_repr logged_in
    = (Raise (KeyError (PStr "items")), w').
Proof.
  eexists.
  eapply (proj1 (proj2 (proj2 (recommend_fetch_failures
                                 (always (ok_json (PDict [("id", PStr "u1")])))
                                 die plain_repr logged_in (PStr "token")
                                 eq_refl eq_refl)
                          (PDict [("id", PStr "u1")]) (PDict [("id", PStr "u1")])
                          _ _ eq_refl eq_refl eq_refl))).
  - reflexivity.
  - reflexivity.
Defined.

(** The small Web API and a logged-in visitor: the page, with one track. *)
Lemma recommend_views_witness :
  exists out,
    Rendered "recommendations.html" [("tracks", PList [artist_entry_json "x" 70])]
      = Rendered "recommendations.html" [("tracks", PList out)] /\
    (length out <= 10)%nat.
Proof.
  destruct (recommend_views small_api die plain_repr logged_in
              (Rendered "recommendations.html"
                 [("tracks", PList [artist_entry_json "x" 70])])
              (snd (recommend small_api die plain_repr logged_in)) eq_refl)
    as [H|[H|[H|H]]]; try discriminate.
  exact H.
Defined.

(** A granted exchange, then the profile page. *)
Lemma stored_token_is_presented_witness :
  exists w',
    callback (always tokens_granted) client secret redirect_uri [("code", "abc")]
      fresh = (Ok (Redirect "/profile"), w') /\
    (forall location,
       fst (profile (always tokens_granted) plain_repr w') <> Ok (Redirect location)) /\
    exists rest,
      trace (snd (profile (always tokens_granted) plain_repr w'))
      = (trace w'
         ++ get_request me_url [("Authorization", "Bearer A")] PNone :: rest)%list.
Proof.
  refine (stored_token_is_presented (always tokens_granted) plain_repr client secret
            redirect_uri [("code", "abc")] fresh tokens_granted
            [("access_token", PStr "A"); ("refresh_token", PStr "R")] "A"
            eq_refl eq_refl eq_refl eq_refl _).
  discriminate.
Defined.

Lemma small_api_obliging : obliging small_api plain_repr.
Proof.
  split; intros history x access_token; unfold small_api, serve; simpl rq_url.
  - destruct (assoc (related_artists_url plain_repr x) _) as [r|] eqn:E;
      [|reflexivity].
    simpl in E. destruct (String.eqb _ _) in E; [|discriminate].
    inversion E. reflexivity.
  - destruct (assoc (recommendations_url plain_repr x) _) as [r|] eqn:E;
      [|reflexivity].
    simpl in E. discriminate.
Qed.

(** The small Web API and a logged-in visitor. *)
Lemma recommend_renders_witness :
  exists out w',
    recommend small_api die plain_repr logged_in
    = (Ok (Rendered "recommendations.html" [("tracks", PList out)]), w') /\
    (length out <= 10)%nat.
Proof.
  refine (recommend_renders small_api die plain_repr logged_in (PStr "token")
            (ok_json (PDict [("id", PStr "u1")]))
            (ok_json (PDict [("items", PList [PDict [("id", PStr "id1")]])]))
            [("id", PStr "u1")]
            [("items", PList [PDict [("id", PStr "id1")]])]
            [PDict [("id", PStr "id1")]]
            eq_refl eq_refl eq_refl eq_refl eq_refl _
            eq_refl eq_refl eq_refl eq_refl eq_refl small_api_obliging).
  discriminate.
Defined.
